(** * The feedback service of main.py

    A shallow embedding of the request handlers of [main.py]: vote
    ingestion ([submit_feedback]), the statistics aggregator ([get_stats]),
    the administrative reset ([reset_votes]) and the diagnostics endpoint
    ([test_database]), with the properties of the specification that concern
    them.

    Conventions.
    - A Python [str] is a [string]: a text in ASCII has one [ascii] per
      character, and any other character is written in its UTF-8 bytes.
      Comparison of [str] values is lexicographic on character codes, which
      the order of the bytes agrees with; lengths and slices count [ascii]s,
      which are the characters of a text in ASCII.
    - A Python [int] is a [Z]; a stored document is a [gmap string pyval].
    - A raised exception is the [Raise] case of [except]; a handler that
      touches the database threads a [world] through. *)

From Stdlib Require Import ZArith NArith Ascii List Sorted Permutation Lia.
From Stdlib Require Import SpecFloat.
From stdpp Require Import base option list gmap strings pretty.

Local Open Scope Z_scope.

(** ** Exceptions *)

(** The exceptions the handlers and the builtins they call can raise.
    [RequestValidationError] is what the framework raises when the request
    body does not validate against [VoteRequest] (answered with status 422). *)
Inductive exn : Type :=
| TypeError
| ValueError
| OverflowError
| KeyError (key : string)
| RequestValidationError
| HTTPException (status_code : Z) (detail : string).

Inductive except (A : Type) : Type :=
| Ok (a : A)
| Raise (e : exn).

Arguments Ok {A} a.
Arguments Raise {A} e.

#[global] Instance except_ret : MRet except := fun A a => Ok a.

#[global] Instance except_bind : MBind except := fun A B k m =>
  match m with
  | Ok a => k a
  | Raise e => Raise e
  end.

(** ** Python values *)

(** [datetime.datetime]: the fields of the object; [utcoffset] is [None] for
    a naive datetime and otherwise the offset from UTC in microseconds. *)
Record datetime : Type := Datetime {
  year : N;
  month : N;
  day : N;
  hour : N;
  minute : N;
  second : N;
  microsecond : N;
  utcoffset : option Z
}.

(** The values a stored field or a request field can hold.
    - [PFloat f repr]: a float with its IEEE value [f]; [repr] is the text
      [str()] prints for it (the shortest decimal that reads back as [f]),
      carried as data.
    - [PObj i s]: a value of any other type (a list, an embedded document,
      bytes, an ObjectId, ...), given by what the code can observe of it:
      [i] is the outcome of [int()] on it, [s] the text of [str()]. *)
Inductive pyval : Type :=
| PNone
| PBool (b : bool)
| PInt (z : Z)
| PFloat (f : spec_float) (repr : string)
| PStr (s : string)
| PDatetime (dt : datetime)
| PObj (i : except Z) (s : string).

(** A document of a collection: a [dict] with [str] keys. *)
Abbreviation document := (gmap string pyval).

(** [d.get(key, dflt)] *)
Definition dict_get (d : document) (key : string) (dflt : pyval) : pyval :=
  default dflt (d !! key).

(** ** The builtins [int] and [str] *)

(** [int(x)] for a float [x]: the value truncated toward zero; infinities
    raise [OverflowError] and NaN raises [ValueError]. *)
Definition int_of_float (f : spec_float) : except Z :=
  match f with
  | S754_zero _ => Ok 0
  | S754_infinity _ => Raise OverflowError
  | S754_nan => Raise ValueError
  | S754_finite s m e =>
      let a := if 0 <=? e then Z.pos m * 2 ^ e else Z.pos m / 2 ^ (- e) in
      Ok (if s then - a else a)
  end.

(** A reference reading of [int(s)] for a [str] of ASCII text: blanks around
    the literal are dropped, then comes an optional sign and decimal digits,
    which single underscores may separate. *)
Module IntLiteral.

Definition is_space (c : ascii) : bool :=
  let n := N_of_ascii c in
  ((9 <=? n) && (n <=? 13) || (n =? 32))%N.

Definition digit (c : ascii) : option Z :=
  let n := N_of_ascii c in
  if ((48 <=? n) && (n <=? 57))%N then Some (Z.of_N n - 48) else None.

Fixpoint all_space (s : string) : bool :=
  match s with
  | EmptyString => true
  | String c s' => is_space c && all_space s'
  end.

Fixpoint lstrip (s : string) : string :=
  match s with
  | String c s' => if is_space c then lstrip s' else s
  | EmptyString => s
  end.

(** [after_digit] tells whether the character before was a digit: an
    underscore or the end of the literal is allowed only then. *)
Fixpoint digits (s : string) (acc : Z) (after_digit : bool) : option Z :=
  match s with
  | EmptyString => if after_digit then Some acc else None
  | String c s' =>
      match digit c with
      | Some d => digits s' (10 * acc + d) true
      | None =>
          if negb after_digit then None
          else if Ascii.eqb c "_" then
            match s' with
            | String c' _ => if digit c' is Some _ then digits s' acc false else None
            | EmptyString => None
            end
          else if all_space s then Some acc
          else None
      end
  end.

Definition parse (s : string) : option Z :=
  match lstrip s with
  | String "-" s' => Z.opp <$> digits s' 0 false
  | String "+" s' => digits s' 0 false
  | s' => digits s' 0 false
  end.

End IntLiteral.

(** [str(z)] for an int: its decimal text. *)
Definition str_of_int (z : Z) : string := pretty z.

(** ["%0wd" % n]: the decimal text of [n], padded with zeros on the left to
    width [w]. *)
Definition zero_pad (w : nat) (n : N) : string :=
  let s := pretty n in
  String.concat "" (replicate (w - String.length s) "0") +:+ s.

(** The offset suffix of [isoformat]: [+HH:MM], with [:SS] when the offset
    has seconds and [.ffffff] when it has microseconds; nothing for a naive
    datetime. *)
Definition format_offset (off : option Z) : string :=
  match off with
  | None => ""
  | Some o =>
      let sign := if o <? 0 then "-" else "+" in
      let a := Z.abs o in
      let hh := a / 3600000000 in
      let r := a mod 3600000000 in
      let mm := r / 60000000 in
      let ss := r mod 60000000 in
      let secs := ss / 1000000 in
      let us := ss mod 1000000 in
      sign +:+ zero_pad 2 (Z.to_N hh) +:+ ":" +:+ zero_pad 2 (Z.to_N mm)
      +:+ (if ss =? 0 then ""
           else ":" +:+ zero_pad 2 (Z.to_N secs)
                +:+ (if us =? 0 then "" else "." +:+ zero_pad 6 (Z.to_N us)))
  end.

(** [dt.isoformat(sep)]: [YYYY-MM-DD], [sep], [HH:MM:SS], the microseconds
    when they are not zero, and the offset. *)
Definition isoformat_sep (sep : string) (dt : datetime) : string :=
  zero_pad 4 (year dt) +:+ "-" +:+ zero_pad 2 (month dt) +:+ "-"
  +:+ zero_pad 2 (day dt) +:+ sep
  +:+ zero_pad 2 (hour dt) +:+ ":" +:+ zero_pad 2 (minute dt) +:+ ":"
  +:+ zero_pad 2 (second dt)
  +:+ (if (microsecond dt =? 0)%N then "" else "." +:+ zero_pad 6 (microsecond dt))
  +:+ format_offset (utcoffset dt).

(** [dt.isoformat()] *)
Definition isoformat (dt : datetime) : string := isoformat_sep "T" dt.

(** [str(x)]; on a datetime it is [isoformat] with a blank for [T]. *)
Definition py_str (v : pyval) : string :=
  match v with
  | PNone => "None"
  | PBool true => "True"
  | PBool false => "False"
  | PInt z => str_of_int z
  | PFloat _ repr => repr
  | PStr s => s
  | PDatetime dt => isoformat_sep " " dt
  | PObj _ s => s
  end.

(** [s[:n]]: the first [n] characters of a [str], a character being one
    [ascii]. On a text in ASCII this is the slice of the source; a text with
    other characters, written in its UTF-8 bytes, is cut by bytes here. *)
Fixpoint str_take (n : nat) (s : string) : string :=
  match n, s with
  | S n', String c s' => String c (str_take n' s')
  | _, _ => ""
  end.

(** A text in ASCII: every character is below 128. *)
Fixpoint ascii_text (s : string) : bool :=
  match s with
  | EmptyString => true
  | String c s' => (N_of_ascii c <? 128)%N && ascii_text s'
  end.

(** ** [sorted] *)

(** [sorted(l, key=key)] with [str] keys: a stable sort, ascending in the
    order of [str]. Each element is placed before the first later element
    whose key is not smaller, so equal keys keep their order. *)
Fixpoint insert_by {A : Type} (key : A -> string) (x : A) (l : list A) : list A :=
  match l with
  | [] => [x]
  | y :: l' =>
      if String.leb (key x) (key y) then x :: l else y :: insert_by key x l'
  end.

Definition sorted {A : Type} (key : A -> string) (l : list A) : list A :=
  foldr (insert_by key) [] l.

(** ** The data of the service *)

(** One element of the timeline: [{"timestamp": ts_str, "score": s}]. *)
Record entry : Type := Entry {
  timestamp : string;
  score : Z
}.

(** The body of the response of [get_stats]. *)
Record stats : Type := Stats {
  counts : gmap string Z;
  total_votes : Z;
  total_score : Z;
  timeline : list entry
}.

(** The local variables of [get_stats] that its loop updates. *)
Record tally : Type := Tally {
  t_counts : gmap string Z;
  t_total_score : Z;
  t_timeline : list entry
}.

(** The acknowledgement of [submit_feedback] and [reset_votes]:
    [{"ok": True}], with a ["message"] for the former. *)
Record ack : Type := Ack {
  ok : bool;
  message : option string
}.

(** [VoteRequest]: the validated request body, [score: int] with
    [ge=1, le=5]. *)
Record VoteRequest : Type := { vote_score : Z }.

(** ** The database *)

(** An exception as the handlers of [test_database] see it: whether it is
    an [ImportError], and the text of [str(e)]. *)
Record raised : Type := Raised_ {
  is_import_error : bool;
  exc_text : string
}.

Inductive outcome (A : Type) : Type :=
| Returned (a : A)
| Raised (e : raised).

Arguments Returned {A} a.
Arguments Raised {A} e.

(** The database handle [db], as far as [main.py] uses it: [db_name] is the
    attribute [name] ([None] when the handle has none), and
    [list_collection_names] what the call of that name does. *)
Record db_handle : Type := DbHandle {
  db_name : option (outcome string);
  list_collection_names : outcome (list string)
}.

(** A call that reached the database. *)
Inductive db_call : Type :=
| InsertOne (collection : string) (data : document)
| Find (collection : string)
| DeleteMany (collection : string).

(** The world a handler runs in: the module-level handle [db] ([None] when
    the database is not configured), the stored collections, and the calls
    made to the database so far, oldest first. *)
Record world : Type := World {
  db : option db_handle;
  store : gmap string (list document);
  calls : list db_call
}.

(** The documents of a collection; a collection that was never written is
    empty. *)
Definition collection_docs (c : string) (w : world) : list document :=
  default [] (store w !! c).

(** Modelled from the spec: the module [database] is not part of the sources;
    [create_document(collection, data)] persists [data] as one new record of
    the collection. *)
Definition create_document (c : string) (data : document) (w : world) : world :=
  {| db := db w;
     store := <[c := collection_docs c w ++ [data]]> (store w);
     calls := calls w ++ [InsertOne c data] |}.

(** Modelled from the spec: the module [database] is not part of the sources;
    [get_documents(collection)] returns the stored records of the
    collection and changes nothing. *)
Definition get_documents (c : string) (w : world) : list document * world :=
  (collection_docs c w,
   {| db := db w; store := store w; calls := calls w ++ [Find c] |}).

(** Modelled from the spec: [db[collection].delete_many({})] deletes every
    record of the collection. *)
Definition delete_many (c : string) (w : world) : world :=
  {| db := db w;
     store := <[c := []]> (store w);
     calls := calls w ++ [DeleteMany c] |}.

(** ** The diagnostics endpoint *)

(** The response of [test_database]; [database_url] and [database_name]
    start as [None]. The marks of the status literals are written as in the
    source (in their UTF-8 bytes here). *)
Record diagnostics : Type := Diagnostics {
  backend : string;
  database : string;
  database_url : option string;
  database_name : option string;
  connection_status : string;
  collections : list string
}.

Definition set_database (v : string) (r : diagnostics) : diagnostics :=
  Diagnostics (backend r) v (database_url r) (database_name r)
    (connection_status r) (collections r).

Definition set_database_url (v : string) (r : diagnostics) : diagnostics :=
  Diagnostics (backend r) (database r) (Some v) (database_name r)
    (connection_status r) (collections r).

Definition set_database_name (v : string) (r : diagnostics) : diagnostics :=
  Diagnostics (backend r) (database r) (database_url r) (Some v)
    (connection_status r) (collections r).

Definition set_connection_status (v : string) (r : diagnostics) : diagnostics :=
  Diagnostics (backend r) (database r) (database_url r) (database_name r)
    v (collections r).

Definition set_collections (v : list string) (r : diagnostics) : diagnostics :=
  Diagnostics (backend r) (database r) (database_url r) (database_name r)
    (connection_status r) v.

(** A block of statements that updates the response in place: the response
    as the block leaves it, and the exception it raised, if any. *)
Abbreviation block := (diagnostics * option raised)%type.

(** The inner [try] block: list the collections and keep the first ten. *)
Definition inner_try (h : db_handle) (r : diagnostics) : block :=
  match list_collection_names h with
  | Raised e => (r, Some e)
  | Returned names =>
      (set_database "✅ Connected & Working" (set_collections (take 10 names) r),
       None)
  end.

(** The inner [try ... except Exception as e]. *)
Definition inner_try_except (h : db_handle) (r : diagnostics) : block :=
  match inner_try h r with
  | (r', Some e) =>
      (set_database ("⚠️  Connected but Error: " +:+ str_take 50 (exc_text e)) r',
       None)
  | (r', None) => (r', None)
  end.

(** The outer [try] block; [imported] is the outcome of
    [from database import db as _db]. [hasattr(_db, 'name')] lets through
    whatever the attribute raises, unless it is absent. *)
Definition outer_try (imported : outcome (option db_handle)) (r : diagnostics)
    : block :=
  match imported with
  | Raised e => (r, Some e)
  | Returned None =>
      (set_database "⚠️  Available but not initialized" r, None)
  | Returned (Some h) =>
      let r1 := set_database_url "✅ Configured" (set_database "✅ Available" r) in
      match db_name h with
      | Some (Raised e) => (r1, Some e)
      | Some (Returned n) =>
          inner_try_except h
            (set_connection_status "Connected" (set_database_name n r1))
      | None =>
          inner_try_except h
            (set_connection_status "Connected"
               (set_database_name "✅ Connected" r1))
      end
  end.

(** The outer [try ... except ImportError ... except Exception as e]. *)
Definition outer_try_except (imported : outcome (option db_handle))
    (r : diagnostics) : block :=
  match outer_try imported r with
  | (r', Some e) =>
      if is_import_error e then
        (set_database "❌ Database module not found (run enable-database first)" r',
         None)
      else (set_database ("❌ Error: " +:+ str_take 50 (exc_text e)) r', None)
  | (r', None) => (r', None)
  end.

(** ["✅ Set" if os.getenv(name) else "❌ Not Set"]: an unset variable and an
    empty one both count as not set. *)
Definition env_flag (v : option string) : string :=
  match v with
  | None | Some EmptyString => "❌ Not Set"
  | Some _ => "✅ Set"
  end.

(** [test_database]; [env_url] and [env_name] are [os.getenv] of
    [DATABASE_URL] and [DATABASE_NAME]. *)
Definition test_database (imported : outcome (option db_handle))
    (env_url env_name : option string) : outcome diagnostics :=
  let response :=
    Diagnostics "✅ Running" "❌ Not Available" None None "Not Connected" [] in
  match outer_try_except imported response with
  | (_, Some e) => Raised e
  | (r, None) =>
      Returned (set_database_name (env_flag env_name)
                  (set_database_url (env_flag env_url) r))
  end.

(** ** Requests *)

(** A request to one of the data endpoints: [POST /api/feedback] with the
    field [score] of its body and the clock reading of the handler,
    [GET /api/stats], [DELETE /api/reset]. *)
Inductive request : Type :=
| PostFeedback (body_score : option pyval) (now : datetime)
| GetStats
| ResetVotes.

(** ** Sample data *)

(** A reading of the UTC clock, [sec] seconds after 09:30 on 2024-05-17. *)
Definition sample_time (sec : N) : datetime :=
  Datetime 2024 5 17 9 30 sec 0 (Some 0).

(** A stored record whose score is null. *)
Definition null_score_record : document :=
  {[ "score" := PNone; "created_at" := PDatetime (sample_time 1) ]}.

(** A stored record with the score 4. *)
Definition good_record : document :=
  {[ "score" := PInt 4; "created_at" := PDatetime (sample_time 2) ]}.

(** A record with no score, and one whose score is out of range. *)
Definition no_score_record : document :=
  {[ "created_at" := PStr "2024-05-17" ]}.

Definition big_score_record : document :=
  {[ "score" := PInt 9; "created_at" := PDatetime (sample_time 3) ]}.

(** The three sample records of which one is valid. *)
Definition sample_docs : list document :=
  [no_score_record; good_record; big_score_record].

(** The response for one vote of score 4 at the time of [good_record]. *)
Definition sample_stats : stats :=
  Stats {[ "1" := 0; "2" := 0; "3" := 0; "4" := 1; "5" := 0 ]} 1 4
    [Entry "2024-05-17T09:30:02+00:00" 4].

(** Three records retrieved out of the order of their timestamps, two of
    them with the same timestamp, and their response. *)
Definition late_record : document :=
  {[ "score" := PInt 5; "created_at" := PDatetime (sample_time 3) ]}.

Definition early_record : document :=
  {[ "score" := PInt 2; "created_at" := PDatetime (sample_time 1) ]}.

Definition tied_record : document :=
  {[ "score" := PInt 4; "created_at" := PDatetime (sample_time 1) ]}.

Definition unordered_docs : list document :=
  [late_record; early_record; tied_record].

Definition unordered_stats : stats :=
  Stats {[ "1" := 0; "2" := 1; "3" := 0; "4" := 1; "5" := 1 ]} 3 11
    [Entry "2024-05-17T09:30:01+00:00" 2;
     Entry "2024-05-17T09:30:01+00:00" 4;
     Entry "2024-05-17T09:30:03+00:00" 5].

(** A reference reading of the conversion to [int] that the validation
    library applies in its default mode, which [VoteRequest] does not
    change: an int is taken as it is, [True] and [False] are 1 and 0, a
    float without a fractional part is its value, and a text is converted
    when it is an integer literal. What the versions of the library differ
    on (a float with a fractional part, a text such as [3.0]) is not
    converted here. *)
Definition lax_int (v : pyval) : option Z :=
  match v with
  | PInt z => Some z
  | PBool b => Some (if b then 1 else 0)
  | PFloat (S754_zero _) _ => Some 0
  | PFloat (S754_finite sign m e) _ =>
      if 0 <=? e then Some (if sign then - (Z.pos m * 2 ^ e) else Z.pos m * 2 ^ e)
      else if Z.pos m mod 2 ^ (- e) =? 0 then
        Some (if sign then - (Z.pos m / 2 ^ (- e)) else Z.pos m / 2 ^ (- e))
      else None
  | PStr s => IntLiteral.parse s
  | _ => None
  end.

(** A validation that converts no value of another type to an int. *)
Definition strict_int (v : pyval) : option Z :=
  match v with
  | PInt z => Some z
  | _ => None
  end.

Definition sample_handle : db_handle :=
  DbHandle (Some (Returned "feedback_db")) (Returned ["feedback"]).

(** A configured database with nothing stored, and a world without a
    handle in which one record is stored. *)
Definition empty_world : world := World (Some sample_handle) ∅ [].

Definition unconfigured_world : world :=
  World None {[ "feedback" := [good_record] ]} [].

(** A configured database in which one record is stored. *)
Definition stored_world : world :=
  World (Some sample_handle) {[ "feedback" := [good_record] ]} [].

(** Requests of every kind: two votes, one of them out of range, a query,
    a reset and a last vote. *)
Definition sample_requests : list request :=
  [PostFeedback (Some (PInt 3)) (sample_time 1);
   PostFeedback (Some (PInt 9)) (sample_time 2);
   GetStats;
   ResetVotes;
   PostFeedback (Some (PInt 5)) (sample_time 3)].

(** Three votes at clock readings that increase. *)
Definition sample_votes : list (Z * datetime) :=
  [(3, sample_time 1); (5, sample_time 2); (3, sample_time 3)].

(** The text of an exception, 82 characters of ASCII. *)
Definition long_error_text : string :=
  "localhost:27017: [Errno 111] Connection refused, Timeout: 5s, Topology Description".

(** A handle without the attribute [name] whose listing raises. *)
Definition failing_handle : db_handle :=
  DbHandle None (Raised (Raised_ false long_error_text)).

(** ** The handlers of the data endpoints *)

Section Service.

(** [int(s)] for a [str]: the integer the text denotes, or [None] where
    [int()] raises [ValueError]. Which texts are literals is the
    interpreter's matter (blanks, underscores, the digit limit), so the
    aggregator is stated for any such reading; [IntLiteral.parse] is one. *)
Variable int_of_str : string -> option Z.

(** The conversion of a raw body field to the declared type [int] by the
    request validation, or [None] where it reports a type error. Which
    values of other types it converts is the validation library's matter;
    an int is taken as it is. [lax_int] is a reading of its default mode. *)
Variable validate_int : pyval -> option Z.
Hypothesis validate_int_int : forall z : Z, validate_int (PInt z) = Some z.

(** [int(x)] *)
Definition py_int (v : pyval) : except Z :=
  match v with
  | PNone => Raise TypeError
  | PBool b => Ok (if b then 1 else 0)
  | PInt z => Ok z
  | PFloat f _ => int_of_float f
  | PStr s =>
      match int_of_str s with
      | Some z => Ok z
      | None => Raise ValueError
      end
  | PDatetime _ => Raise TypeError
  | PObj i _ => i
  end.

(** [counts = {str(i): 0 for i in range(1, 6)}] *)
Definition counts_init : gmap string Z :=
  list_to_map ((fun i => (str_of_int i, 0)) <$> seqZ 1 5).

(** [counts[key] += 1]; a key that is not in the dict raises [KeyError]. *)
Definition dict_incr (m : gmap string Z) (key : string) : except (gmap string Z) :=
  match m !! key with
  | Some c => Ok (<[key := c + 1]> m)
  | None => Raise (KeyError key)
  end.

(** [1 <= s <= 5] *)
Definition in_range (s : Z) : bool := (1 <=? s) && (s <=? 5).

(** The timestamp text of a record: [ts.isoformat()] for a datetime,
    [str(ts)] for anything else. *)
Definition ts_str (ts : pyval) : string :=
  match ts with
  | PDatetime dt => isoformat dt
  | _ => py_str ts
  end.

(** The body of the loop of [get_stats], for the record [d]. *)
Definition loop_body (t : tally) (d : document) : except tally :=
  s ← py_int (dict_get d "score" (PInt 0));
  if in_range s then
    counts' ← dict_incr (t_counts t) (str_of_int s);
    let total_score' := t_total_score t + s in
    let ts := dict_get d "created_at" PNone in
    Ok (Tally counts' total_score' (t_timeline t ++ [Entry (ts_str ts) s]))
  else Ok t.

(** [for d in docs: ...]: an exception of the body ends the loop. *)
Fixpoint stats_loop (docs : list document) (t : tally) : except tally :=
  match docs with
  | [] => Ok t
  | d :: docs' => t' ← loop_body t d; stats_loop docs' t'
  end.

(** [sum(counts.values())] *)
Definition sum_values (m : gmap string Z) : Z :=
  map_fold (fun _ v acc => v + acc) 0 m.

(** [get_stats] from the line after [get_documents] on: the aggregation of
    the records [docs]. *)
Definition aggregate (docs : list document) : except stats :=
  t ← stats_loop docs (Tally counts_init 0 []);
  let total_votes := sum_values (t_counts t) in
  Ok (Stats (t_counts t) total_votes (t_total_score t)
        (sorted timestamp (t_timeline t))).

Definition not_configured : exn :=
  HTTPException 500 "Database not configured".

(** [get_stats] *)
Definition get_stats (w : world) : except stats * world :=
  match db w with
  | None => (Raise not_configured, w)
  | Some _ =>
      let (docs, w') := get_documents "feedback" w in
      (aggregate docs, w')
  end.

(** [submit_feedback]; [now] is the value of [datetime.now(timezone.utc)]. *)
Definition submit_feedback (vote : VoteRequest) (now : datetime) (w : world)
    : except ack * world :=
  match db w with
  | None => (Raise not_configured, w)
  | Some _ =>
      let data : document :=
        {[ "score" := PInt (vote_score vote);
           "created_at" := PDatetime now;
           "updated_at" := PDatetime now ]} in
      (Ok (Ack true (Some "Thanks for your feedback!")),
       create_document "feedback" data w)
  end.

(** [reset_votes] *)
Definition reset_votes (w : world) : except ack * world :=
  match db w with
  | None => (Raise not_configured, w)
  | Some _ => (Ok (Ack true None), delete_many "feedback" w)
  end.

(** The validation of the request body against [VoteRequest], on the field
    [score] of the body ([None] when the body has none): the field is
    required, must convert to an int, and the int must be in 1..5. *)
Definition validate_vote (body_score : option pyval) : except VoteRequest :=
  match body_score with
  | None => Raise RequestValidationError
  | Some v =>
      match validate_int v with
      | None => Raise RequestValidationError
      | Some s =>
          if (1 <=? s) && (s <=? 5) then Ok {| vote_score := s |}
          else Raise RequestValidationError
      end
  end.

(** [POST /api/feedback]: the body is validated before the handler runs. *)
Definition post_feedback (body_score : option pyval) (now : datetime)
    (w : world) : except ack * world :=
  match validate_vote body_score with
  | Raise e => (Raise e, w)
  | Ok vote => submit_feedback vote now w
  end.

(** Votes submitted one after the other; each is a score and the clock
    reading of its request. *)
Fixpoint submit_all (votes : list (Z * datetime)) (w : world) : except world :=
  match votes with
  | [] => Ok w
  | (s, now) :: votes' =>
      match submit_feedback {| vote_score := s |} now w with
      | (Ok _, w') => submit_all votes' w'
      | (Raise e, _) => Raise e
      end
  end.

(** ** What the aggregator computes *)

(** The coerced score of a record: [int(d.get("score", 0))]. *)
Definition score_of (d : document) : except Z :=
  py_int (dict_get d "score" (PInt 0)).

(** A valid record in the words of the specification: its score is there,
    converts to an integer, and the integer is in 1..5. *)
Definition valid_record (d : document) : bool :=
  match d !! "score" with
  | Some v =>
      match py_int v with
      | Ok s => (1 <=? s) && (s <=? 5)
      | Raise _ => false
      end
  | None => false
  end.

(** A record whose score, if it has one, converts to an integer. *)
Definition coercible (d : document) : bool :=
  match d !! "score" with
  | Some v => if py_int v is Ok _ then true else false
  | None => true
  end.

(** The timeline entry of the record [d], counted with score [s]. *)
Definition entry_of (d : document) (s : Z) : entry :=
  Entry (ts_str (dict_get d "created_at" PNone)) s.

(** The entries of the records that pass the range check, in the order of
    the records; the first score that does not convert raises. *)
Fixpoint kept_entries (docs : list document) : except (list entry) :=
  match docs with
  | [] => Ok []
  | d :: docs' =>
      s ← score_of d;
      es ← kept_entries docs';
      Ok (if in_range s then entry_of d s :: es else es)
  end.

(** The range check of the loop on the coerced score. *)
Definition passes_range (d : document) : bool :=
  match score_of d with
  | Ok s => in_range s
  | Raise _ => false
  end.

(** The entry the loop appends for [d], if any. *)
Definition kept (d : document) : option entry :=
  match score_of d with
  | Ok s => if in_range s then Some (entry_of d s) else None
  | Raise _ => None
  end.

(** The dict [{"1": c1, "2": c2, "3": c3, "4": c4, "5": c5}]. *)
Definition counts_of (c1 c2 c3 c4 c5 : Z) : gmap string Z :=
  {[ "1" := c1; "2" := c2; "3" := c3; "4" := c4; "5" := c5 ]}.

(** The number of entries with score [k]. *)
Definition count_score (k : Z) (es : list entry) : Z :=
  Z.of_nat (length (List.filter (fun e => score e =? k) es)).

Definition sum_scores (es : list entry) : Z :=
  foldr (fun e acc => score e + acc) 0 es.

(** The tally that counts exactly the entries [es]. *)
Definition tally_of (es : list entry) : tally :=
  Tally (counts_of (count_score 1 es) (count_score 2 es) (count_score 3 es)
           (count_score 4 es) (count_score 5 es))
    (sum_scores es) es.

(** The response computed from the entries [es]. *)
Definition stats_of (es : list entry) : stats :=
  Stats (t_counts (tally_of es)) (Z.of_nat (length es)) (sum_scores es)
    (sorted timestamp es).

(** The order of [str], and a list in ascending order of its keys. *)
Definition str_le (a b : string) : Prop := String.leb a b = true.

Definition ascending {A : Type} (key : A -> string) (l : list A) : Prop :=
  StronglySorted (fun a b => str_le (key a) (key b)) l.

(** ** Requests in sequence *)

(** The record [submit_feedback] stores for the score [s] at the clock
    reading [now]. *)
Definition vote_record (s : Z) (now : datetime) : document :=
  {[ "score" := PInt s;
     "created_at" := PDatetime now;
     "updated_at" := PDatetime now ]}.

(** The world after a request; the response is dropped. *)
Definition serve (q : request) (w : world) : world :=
  match q with
  | PostFeedback body_score now => (post_feedback body_score now w).2
  | GetStats => (get_stats w).2
  | ResetVotes => (reset_votes w).2
  end.

(** The world after the requests [qs], served in order. *)
Definition serve_all (qs : list request) (w : world) : world :=
  foldl (fun w q => serve q w) w qs.

(** Every stored feedback record is one that [submit_feedback] wrote for a
    score in 1..5. *)
Definition feedback_wellformed (w : world) : Prop :=
  Forall (fun d => exists (s : Z) (now : datetime),
                     1 <= s <= 5 /\ d = vote_record s now)
    (collection_docs "feedback" w).

(** ** The order of datetimes *)

(** The fields of a [datetime] are in the ranges the type allows. *)
Definition datetime_valid (dt : datetime) : Prop :=
  (1 <= year dt <= 9999 /\ 1 <= month dt <= 12 /\ 1 <= day dt <= 31 /\
   hour dt <= 23 /\ minute dt <= 59 /\ second dt <= 59 /\
   microsecond dt <= 999999)%N.

(** The first comparison that is not [Eq] decides. *)
Definition lex (c c' : comparison) : comparison :=
  match c with
  | Eq => c'
  | _ => c
  end.

(** The order in time of two datetimes of the same offset: by year, then
    month, day, hour, minute, second and microsecond. *)
Definition dt_compare (a b : datetime) : comparison :=
  lex (year a ?= year b)%N
    (lex (month a ?= month b)%N
       (lex (day a ?= day b)%N
          (lex (hour a ?= hour b)%N
             (lex (minute a ?= minute b)%N
                (lex (second a ?= second b)%N
                   (microsecond a ?= microsecond b)%N))))).

(** The [w] lowest decimal digits of [n], the highest first. *)
Fixpoint fixed_digits (w : nat) (n : N) : string :=
  match w with
  | O => ""
  | S w' =>
      fixed_digits w' (n / 10) +:+ String (pretty_N_char (n mod 10)) ""
  end.

(** ** Facts about the builtins *)

Lemma str_of_int_digit (s : Z) :
  1 <= s <= 5 ->
  str_of_int s = "1" /\ s = 1 \/ str_of_int s = "2" /\ s = 2 \/
  str_of_int s = "3" /\ s = 3 \/ str_of_int s = "4" /\ s = 4 \/
  str_of_int s = "5" /\ s = 5.
Proof.
  intros Hs.
  assert (s = 1 \/ s = 2 \/ s = 3 \/ s = 4 \/ s = 5) as Hc by lia.
  destruct Hc as [-> | [-> | [-> | [-> | ->]]]]; vm_compute; tauto.
Qed.

Lemma in_range_spec (s : Z) : in_range s = true <-> 1 <= s <= 5.
Proof. unfold in_range. rewrite andb_true_iff, !Z.leb_le. tauto. Qed.

Lemma counts_init_eq : counts_init = counts_of 0 0 0 0 0.
Proof. reflexivity. Qed.

Lemma map_fold_counts_of (f : string -> Z -> Z -> Z) (b c1 c2 c3 c4 c5 : Z) :
  map_fold f b (counts_of c1 c2 c3 c4 c5)
  = f "3" c3 (f "5" c5 (f "1" c1 (f "2" c2 (f "4" c4 b)))).
Proof. vm_compute. reflexivity. Qed.

Lemma sum_values_counts_of (c1 c2 c3 c4 c5 : Z) :
  sum_values (counts_of c1 c2 c3 c4 c5) = c1 + c2 + c3 + c4 + c5.
Proof. unfold sum_values. rewrite map_fold_counts_of. lia. Qed.

(** ** The tally of the loop is the tally of its timeline *)

Lemma count_score_snoc (k : Z) (es : list entry) (e : entry) :
  count_score k (es ++ [e])
  = count_score k es + (if score e =? k then 1 else 0).
Proof.
  unfold count_score. rewrite List.filter_app, length_app. simpl.
  destruct (score e =? k); simpl; lia.
Qed.

Lemma sum_scores_snoc (es : list entry) (e : entry) :
  sum_scores (es ++ [e]) = sum_scores es + score e.
Proof.
  unfold sum_scores. induction es as [| x es IH]; simpl; [lia |].
  rewrite IH. lia.
Qed.

Lemma dict_incr_tally (es : list entry) (ts : string) (s : Z) :
  1 <= s <= 5 ->
  dict_incr (t_counts (tally_of es)) (str_of_int s)
  = Ok (t_counts (tally_of (es ++ [Entry ts s]))).
Proof.
  intros Hs. unfold tally_of; simpl. rewrite !count_score_snoc; simpl.
  destruct (str_of_int_digit s Hs)
    as [[-> ->] | [[-> ->] | [[-> ->] | [[-> ->] | [-> ->]]]]];
    simpl; rewrite !Z.add_0_r; reflexivity.
Qed.

Lemma loop_body_tally (es : list entry) (d : document) :
  loop_body (tally_of es) d
  = s ← score_of d;
    Ok (tally_of (if in_range s then es ++ [entry_of d s] else es)).
Proof.
  unfold loop_body, score_of.
  destruct (py_int (dict_get d "score" (PInt 0))) as [s | e]; [| done].
  cbn [mbind except_bind].
  destruct (in_range s) eqn:Hr; [| done].
  apply in_range_spec in Hr.
  rewrite (dict_incr_tally es (ts_str (dict_get d "created_at" PNone)) s Hr).
  cbn [mbind except_bind].
  unfold entry_of, tally_of; cbn [t_counts t_total_score t_timeline].
  by rewrite sum_scores_snoc.
Qed.

Lemma stats_loop_tally (docs : list document) (es : list entry) :
  stats_loop docs (tally_of es)
  = es' ← kept_entries docs; Ok (tally_of (es ++ es')).
Proof.
  revert es. induction docs as [| d docs IH]; intros es; simpl.
  - by rewrite app_nil_r.
  - rewrite loop_body_tally.
    destruct (score_of d) as [s | e]; simpl; [| done].
    rewrite IH.
    destruct (kept_entries docs) as [es' | e]; simpl; [| done].
    destruct (in_range s); [by rewrite <- app_assoc | done].
Qed.

Lemma kept_entries_in_range (docs : list document) (es : list entry) :
  kept_entries docs = Ok es -> Forall (fun e => 1 <= score e <= 5) es.
Proof.
  revert es. induction docs as [| d docs IH]; simpl; intros es H.
  - injection H as <-. constructor.
  - destruct (score_of d) as [s | e]; simpl in H; [| done].
    destruct (kept_entries docs) as [es' | e]; simpl in H; [| done].
    injection H as <-.
    destruct (in_range s) eqn:Hr; [| by apply IH].
    constructor; [by apply in_range_spec | by apply IH].
Qed.

Lemma count_score_cons (k : Z) (e : entry) (es : list entry) :
  count_score k (e :: es)
  = (if score e =? k then 1 else 0) + count_score k es.
Proof.
  unfold count_score. simpl. destruct (score e =? k); simpl; lia.
Qed.

Lemma count_score_total (es : list entry) :
  Forall (fun e => 1 <= score e <= 5) es ->
  count_score 1 es + count_score 2 es + count_score 3 es
  + count_score 4 es + count_score 5 es = Z.of_nat (length es).
Proof.
  induction 1 as [| e es He _ IH]; [reflexivity |].
  rewrite !count_score_cons, length_cons, Nat2Z.inj_succ, <- IH.
  assert (score e = 1 \/ score e = 2 \/ score e = 3 \/ score e = 4
          \/ score e = 5) as Hc by lia.
  destruct Hc as [-> | [-> | [-> | [-> | ->]]]]; simpl; lia.
Qed.

Lemma count_score_weighted (es : list entry) :
  Forall (fun e => 1 <= score e <= 5) es ->
  1 * count_score 1 es + 2 * count_score 2 es + 3 * count_score 3 es
  + 4 * count_score 4 es + 5 * count_score 5 es = sum_scores es.
Proof.
  induction 1 as [| e es He _ IH]; [reflexivity |].
  rewrite !count_score_cons. simpl. rewrite <- IH.
  assert (score e = 1 \/ score e = 2 \/ score e = 3 \/ score e = 4
          \/ score e = 5) as Hc by lia.
  destruct Hc as [Hs | [Hs | [Hs | [Hs | Hs]]]]; rewrite Hs; simpl; lia.
Qed.

(** The aggregation is the response computed from the kept entries. *)
Lemma aggregate_spec (docs : list document) :
  aggregate docs = es ← kept_entries docs; Ok (stats_of es).
Proof.
  unfold aggregate. rewrite counts_init_eq.
  change (Tally (counts_of 0 0 0 0 0) 0 []) with (tally_of []).
  rewrite stats_loop_tally.
  destruct (kept_entries docs) as [es | e] eqn:Hk; simpl; [| done].
  unfold stats_of. simpl. rewrite sum_values_counts_of.
  by rewrite (count_score_total es (kept_entries_in_range docs es Hk)).
Qed.

(** ** [sorted] sorts *)

Lemma str_le_total (a b : string) : str_le a b \/ str_le b a.
Proof. apply String.leb_total. Qed.

Lemma str_le_trans (a b c : string) : str_le a b -> str_le b c -> str_le a c.
Proof.
  unfold str_le, String.leb. revert b c.
  induction a as [| x a IH]; intros [| y b] [| z c]; simpl; try done.
  unfold Ascii.compare.
  destruct (N.compare_spec (N_of_ascii x) (N_of_ascii y)) as [Hxy | Hxy | Hxy];
    destruct (N.compare_spec (N_of_ascii y) (N_of_ascii z)) as [Hyz | Hyz | Hyz];
    destruct (N.compare_spec (N_of_ascii x) (N_of_ascii z)) as [Hxz | Hxz | Hxz];
    try done; try lia.
  apply IH.
Qed.

Section Sorted.

Context {A : Type} (key : A -> string).

Lemma insert_by_perm (x : A) (l : list A) : insert_by key x l ≡ₚ x :: l.
Proof.
  induction l as [| y l IH]; simpl; [done |].
  destruct (String.leb (key x) (key y)); [done |].
  rewrite IH. apply perm_swap.
Qed.

Lemma sorted_perm (l : list A) : sorted key l ≡ₚ l.
Proof.
  induction l as [| x l IH]; simpl; [done |].
  unfold sorted in IH. by rewrite insert_by_perm, IH.
Qed.

Lemma sorted_length (l : list A) : length (sorted key l) = length l.
Proof. by rewrite sorted_perm. Qed.

Lemma insert_by_ascending (x : A) (l : list A) :
  ascending key l -> ascending key (insert_by key x l).
Proof.
  unfold ascending. induction l as [| y l IH]; simpl; intros Hl.
  - repeat constructor.
  - apply StronglySorted_inv in Hl as [Hl Hy].
    destruct (String.leb (key x) (key y)) eqn:Hxy.
    + constructor; [by constructor |].
      constructor; [done |].
      eapply Forall_impl; [exact Hy |].
      intros z Hyz. by eapply str_le_trans.
    + constructor; [by apply IH |].
      rewrite insert_by_perm. constructor; [| done].
      destruct (str_le_total (key x) (key y)) as [H | H]; [| done].
      unfold str_le in H. congruence.
Qed.

Lemma sorted_ascending (l : list A) : ascending key (sorted key l).
Proof.
  induction l as [| x l IH]; simpl; [constructor |].
  by apply insert_by_ascending.
Qed.

(** A list that is in ascending order already is left as it is. *)
Lemma sorted_ascending_id (l : list A) : ascending key l -> sorted key l = l.
Proof.
  unfold ascending. induction 1 as [| x l Hl IH Hx]; [done |].
  cbn [sorted foldr]. fold (sorted key l). rewrite IH.
  destruct Hx as [| y l' Hxy _]; [done |].
  cbn [insert_by]. unfold str_le in Hxy. by rewrite Hxy.
Qed.

End Sorted.

(** ** The kept entries *)

Lemma valid_record_passes (d : document) : valid_record d = passes_range d.
Proof.
  unfold valid_record, passes_range, score_of, dict_get.
  destruct (d !! "score") as [v |]; simpl; [| done].
  by destruct (py_int v).
Qed.

Lemma coercible_score_of (d : document) :
  coercible d = true <-> exists s, score_of d = Ok s.
Proof.
  unfold coercible, score_of, dict_get.
  destruct (d !! "score") as [v |]; simpl.
  - destruct (py_int v) as [s | e]; split; intros H; eauto; try done.
    by destruct H.
  - split; eauto.
Qed.

Lemma omap_cons_eq {A B : Type} (f : A -> option B) (x : A) (l : list A) :
  omap f (x :: l)
  = match f x with Some y => y :: omap f l | None => omap f l end.
Proof. reflexivity. Qed.

Lemma omap_pointwise {A B : Type} (f g : A -> option B) (l : list A) :
  (forall x, f x = g x) -> omap f l = omap g l.
Proof.
  intros Hfg. induction l as [| x l IH]; [done |].
  by rewrite !omap_cons_eq, Hfg, IH.
Qed.

Lemma kept_entries_omap (docs : list document) (es : list entry) :
  kept_entries docs = Ok es -> es = omap kept docs.
Proof.
  revert es. induction docs as [| d docs IH]; intros es H.
  - by injection H as <-.
  - rewrite omap_cons_eq. unfold kept at 1. simpl in H.
    destruct (score_of d) as [s | e]; simpl in H; [| done].
    destruct (kept_entries docs) as [es' | e]; simpl in H; [| done].
    injection H as <-. rewrite <- (IH es' eq_refl).
    by destruct (in_range s).
Qed.

Lemma kept_entries_coercible (docs : list document) :
  Forall (fun d => coercible d = true) docs ->
  kept_entries docs = Ok (omap kept docs).
Proof.
  induction 1 as [| d docs Hd _ IH]; [done |].
  apply coercible_score_of in Hd as [s Hs].
  rewrite omap_cons_eq. unfold kept at 1. cbn [kept_entries].
  rewrite Hs, IH. simpl. by destruct (in_range s).
Qed.

Lemma kept_entries_ok_coercible (docs : list document) (es : list entry) :
  kept_entries docs = Ok es -> Forall (fun d => coercible d = true) docs.
Proof.
  revert es. induction docs as [| d docs IH]; simpl; intros es H.
  - constructor.
  - destruct (score_of d) as [s | e] eqn:Hs; simpl in H; [| done].
    destruct (kept_entries docs) as [es' | e]; simpl in H; [| done].
    constructor; [| by eapply IH].
    apply coercible_score_of. eauto.
Qed.

Lemma kept_entries_raise (docs : list document) (e : exn) :
  kept_entries docs = Raise e -> Exists (fun d => score_of d = Raise e) docs.
Proof.
  induction docs as [| d docs IH]; simpl; intros H; [done |].
  destruct (score_of d) as [s | e'] eqn:Hs; simpl in H.
  - destruct (kept_entries docs) as [es' | e'']; simpl in H; [done |].
    injection H as ->. apply Exists_cons_tl. by apply IH.
  - injection H as ->. by apply Exists_cons_hd.
Qed.

Lemma omap_kept_filter (docs : list document) :
  omap kept (List.filter valid_record docs) = omap kept docs.
Proof.
  induction docs as [| d docs IH]; [done |].
  cbn [List.filter]. rewrite (omap_cons_eq kept d docs).
  rewrite valid_record_passes. unfold passes_range, kept at 2.
  destruct (score_of d) as [s | e] eqn:Hs; [| done].
  destruct (in_range s) eqn:Hr; [| done].
  rewrite omap_cons_eq. unfold kept at 1. by rewrite Hs, Hr, IH.
Qed.

Lemma omap_kept_length (docs : list document) :
  length (omap kept docs) = length (List.filter passes_range docs).
Proof.
  induction docs as [| d docs IH]; [done |].
  cbn [List.filter]. rewrite omap_cons_eq.
  unfold kept at 1, passes_range at 1.
  destruct (score_of d) as [s | e]; [| done].
  destruct (in_range s); simpl; by rewrite ?IH.
Qed.

Lemma filter_valid_coercible (docs : list document) :
  Forall (fun d => coercible d = true) (List.filter valid_record docs).
Proof.
  apply Forall_forall. intros d Hd.
  apply list_elem_of_In, List.filter_In in Hd as [_ Hv].
  rewrite valid_record_passes in Hv. unfold passes_range in Hv.
  apply coercible_score_of.
  destruct (score_of d) as [s | e]; [eauto | done].
Qed.

Lemma aggregate_ok (docs : list document) (r : stats) :
  aggregate docs = Ok r <->
  Forall (fun d => coercible d = true) docs /\ r = stats_of (omap kept docs).
Proof.
  rewrite aggregate_spec. split.
  - destruct (kept_entries docs) as [es | e] eqn:Hk; simpl; [| done].
    intros [= <-]. split; [by eapply kept_entries_ok_coercible |].
    by rewrite (kept_entries_omap _ _ Hk).
  - intros [Hc ->]. by rewrite (kept_entries_coercible _ Hc).
Qed.

Lemma kept_score_in_range (d : document) (e : entry) :
  kept d = Some e -> 1 <= score e <= 5.
Proof.
  unfold kept. destruct (score_of d) as [s | x]; [| done].
  destruct (in_range s) eqn:Hr; [| done].
  intros [= <-]. by apply in_range_spec.
Qed.

Lemma omap_kept_in_range (docs : list document) :
  Forall (fun e => 1 <= score e <= 5) (omap kept docs).
Proof.
  apply Forall_forall. intros e He.
  apply list_elem_of_omap in He as (d & _ & Hd).
  by eapply kept_score_in_range.
Qed.

Lemma aggregate_raise (docs : list document) (e : exn) :
  aggregate docs = Raise e -> Exists (fun d => score_of d = Raise e) docs.
Proof.
  rewrite aggregate_spec.
  destruct (kept_entries docs) as [es | e'] eqn:Hk; simpl; [done |].
  intros [= ->]. by apply kept_entries_raise.
Qed.

(** A record whose score does not convert makes the aggregation raise. *)
Lemma aggregate_uncoercible (docs : list document) :
  Exists (fun d => coercible d = false) docs ->
  exists e, aggregate docs = Raise e.
Proof.
  intros Hex. destruct (aggregate docs) as [r | e] eqn:Ha; [| by eauto].
  apply aggregate_ok in Ha as [Hall _].
  apply Exists_exists in Hex as (d & Hd & Hf).
  rewrite Forall_forall in Hall. specialize (Hall d Hd). congruence.
Qed.

(** ** The claims about the aggregator *)

(** C1, as amended: for every collection of records in which every score
    that is present converts to an integer, the aggregation returns, and
    what it returns is what it returns on the valid records alone; the
    records whose score is missing or out of the range 1..5 are skipped. *)
Theorem aggregate_skips_invalid (docs : list document) :
  Forall (fun d => coercible d = true) docs ->
  exists r : stats,
    aggregate docs = Ok r /\
    aggregate (List.filter valid_record docs) = Ok r.
Proof.
  intros Hc. exists (stats_of (omap kept docs)). split.
  - by apply aggregate_ok.
  - apply aggregate_ok. split; [apply filter_valid_coercible |].
    by rewrite omap_kept_filter.
Qed.

(** C3: the aggregation of no record returns the five counts at zero, no
    votes, a total score of zero and an empty timeline. *)
Theorem aggregate_empty :
  aggregate [] =
  Ok (Stats {[ "1" := 0; "2" := 0; "3" := 0; "4" := 0; "5" := 0 ]} 0 0 []).
Proof. reflexivity. Qed.

(** C4: in every response of the aggregation, [total_votes] is the sum of
    the five counts, and it is the number of records whose coerced score
    passes the range check. *)
Theorem total_votes_is_count (docs : list document) (r : stats) :
  aggregate docs = Ok r ->
  exists c1 c2 c3 c4 c5 : Z,
    counts r = {[ "1" := c1; "2" := c2; "3" := c3; "4" := c4; "5" := c5 ]} /\
    total_votes r = c1 + c2 + c3 + c4 + c5 /\
    total_votes r = Z.of_nat (length (List.filter passes_range docs)).
Proof.
  intros [_ ->]%aggregate_ok.
  set (es := omap kept docs).
  exists (count_score 1 es), (count_score 2 es), (count_score 3 es),
    (count_score 4 es), (count_score 5 es).
  split; [done |]. simpl. split.
  - symmetry. apply count_score_total, omap_kept_in_range.
  - unfold es. by rewrite omap_kept_length.
Qed.

(** C5: the timeline of every response is in ascending order of its
    timestamp texts; and in whatever order the same records are retrieved,
    the aggregation returns a timeline in ascending order with the same
    entries. *)
Theorem timeline_sorted (docs : list document) (r : stats) :
  aggregate docs = Ok r ->
  ascending timestamp (timeline r) /\
  forall docs' : list document, docs' ≡ₚ docs ->
    exists r' : stats,
      aggregate docs' = Ok r' /\
      ascending timestamp (timeline r') /\
      timeline r' ≡ₚ timeline r.
Proof.
  intros [Hc ->]%aggregate_ok. split; [apply sorted_ascending |].
  intros docs' Hp. exists (stats_of (omap kept docs')). split.
  - apply aggregate_ok. split; [| done].
    eapply Forall_Permutation; [| exact Hp | exact Hc]. done.
  - split; [apply sorted_ascending |].
    simpl. by rewrite !sorted_perm, Hp.
Qed.

(** C8: the timeline is made of one entry per record that passes the range
    check; its timestamp is [isoformat] of [created_at] when that is a
    datetime, and the [str] of the value otherwise ([None] when the field
    is missing). An exception of the aggregation is one that [int] raised on
    a score: no value of [created_at] raises. *)
Theorem timeline_timestamps (docs : list document) :
  match aggregate docs with
  | Ok r =>
      timeline r =
      sorted timestamp
        (omap (fun d =>
                 match score_of d with
                 | Ok s =>
                     if in_range s then
                       Some (Entry
                               match d !! "created_at" with
                               | Some (PDatetime dt) => isoformat dt
                               | Some v => py_str v
                               | None => "None"
                               end s)
                     else None
                 | Raise _ => None
                 end) docs)
  | Raise e => Exists (fun d => score_of d = Raise e) docs
  end.
Proof.
  destruct (aggregate docs) as [r | e] eqn:Ha.
  - apply aggregate_ok in Ha as [_ ->]. simpl. f_equal.
    apply omap_pointwise. intros d.
    unfold kept, entry_of, ts_str, dict_get.
    destruct (score_of d) as [s | e]; [| done].
    destruct (in_range s); [| done].
    destruct (d !! "created_at") as [[] |]; done.
  - by apply aggregate_raise.
Qed.

(** C10: in every response of the aggregation, the timeline has
    [total_votes] entries, every score of the timeline is in 1..5, and
    [total_score] is the sum over [s] in 1..5 of [s] times the count of
    [s]. *)
Theorem stats_invariant (docs : list document) (r : stats) :
  aggregate docs = Ok r ->
  Z.of_nat (length (timeline r)) = total_votes r /\
  Forall (fun e => 1 <= score e <= 5) (timeline r) /\
  exists c1 c2 c3 c4 c5 : Z,
    counts r = {[ "1" := c1; "2" := c2; "3" := c3; "4" := c4; "5" := c5 ]} /\
    total_score r = 1 * c1 + 2 * c2 + 3 * c3 + 4 * c4 + 5 * c5.
Proof.
  intros [_ ->]%aggregate_ok.
  set (es := omap kept docs). simpl. split; [| split].
  - by rewrite sorted_length.
  - rewrite sorted_perm. apply omap_kept_in_range.
  - exists (count_score 1 es), (count_score 2 es), (count_score 3 es),
      (count_score 4 es), (count_score 5 es).
    split; [done |].
    symmetry. apply count_score_weighted, omap_kept_in_range.
Qed.

(** ** The handlers and the database *)

Lemma create_document_docs (c : string) (data : document) (w : world) :
  collection_docs c (create_document c data w) = collection_docs c w ++ [data].
Proof. unfold collection_docs at 1. simpl. by rewrite lookup_insert_eq. Qed.

Lemma create_document_other (c c' : string) (data : document) (w : world) :
  c' <> c ->
  collection_docs c' (create_document c data w) = collection_docs c' w.
Proof.
  intros Hne. unfold collection_docs. simpl. by rewrite lookup_insert_ne.
Qed.

Lemma submit_feedback_configured (vote : VoteRequest) (now : datetime)
    (w : world) :
  is_Some (db w) ->
  submit_feedback vote now w
  = (Ok (Ack true (Some "Thanks for your feedback!")),
     create_document "feedback"
       {[ "score" := PInt (vote_score vote);
          "created_at" := PDatetime now;
          "updated_at" := PDatetime now ]} w).
Proof. intros [h Hh]. unfold submit_feedback. by rewrite Hh. Qed.

(** C2: from a configured database with no feedback stored, submitting the
    scores 3, 5 and 3 and then asking for the statistics returns the counts
    [{"1":0,"2":0,"3":2,"4":0,"5":1}], 3 votes, the total score 11, and a
    timeline of the three entries in ascending order of their timestamps. *)
Theorem stats_after_3_5_3 (w : world) (t1 t2 t3 : datetime) :
  is_Some (db w) ->
  collection_docs "feedback" w = [] ->
  exists (w' : world) (r : stats),
    submit_all [(3, t1); (5, t2); (3, t3)] w = Ok w' /\
    (get_stats w').1 = Ok r /\
    counts r = {[ "1" := 0; "2" := 0; "3" := 2; "4" := 0; "5" := 1 ]} /\
    total_votes r = 3 /\
    total_score r = 11 /\
    length (timeline r) = 3%nat /\
    ascending timestamp (timeline r) /\
    timeline r ≡ₚ [Entry (isoformat t1) 3; Entry (isoformat t2) 5;
                   Entry (isoformat t3) 3].
Proof.
  intros Hdb Hempty.
  set (rec := fun (s : Z) (t : datetime) =>
    ({[ "score" := PInt s; "created_at" := PDatetime t;
        "updated_at" := PDatetime t ]} : document)).
  set (w1 := create_document "feedback" (rec 3 t1) w).
  set (w2 := create_document "feedback" (rec 5 t2) w1).
  set (w3 := create_document "feedback" (rec 3 t3) w2).
  set (es := [Entry (isoformat t1) 3; Entry (isoformat t2) 5;
              Entry (isoformat t3) 3]).
  assert (collection_docs "feedback" w3 = [rec 3 t1; rec 5 t2; rec 3 t3])
    as Hdocs.
  { unfold w3, w2, w1. by rewrite !create_document_docs, Hempty. }
  exists w3, (stats_of es). split; [| split].
  - cbn [submit_all].
    rewrite (submit_feedback_configured _ t1 w Hdb).
    rewrite (submit_feedback_configured _ t2 w1 Hdb).
    by rewrite (submit_feedback_configured _ t3 w2 Hdb).
  - unfold get_stats. destruct Hdb as [h Hh].
    replace (db w3) with (Some h) by (symmetry; exact Hh).
    cbn [get_documents fst]. rewrite Hdocs. apply aggregate_ok.
    split; [by repeat constructor | reflexivity].
  - repeat split; try done.
    + unfold stats_of; cbn [timeline]. by rewrite sorted_length.
    + apply sorted_ascending.
    + apply sorted_perm.
Qed.

(** With a handle, [get_stats] is the aggregation of the stored feedback,
    after one read. *)
Lemma get_stats_configured (w : world) :
  is_Some (db w) ->
  get_stats w
  = (aggregate (collection_docs "feedback" w),
     World (db w) (store w) (calls w ++ [Find "feedback"])).
Proof. intros [h Hh]. unfold get_stats, get_documents. by rewrite Hh. Qed.

(** After a reset the statistics are those of no record. *)
Lemma get_stats_after_reset (w : world) :
  is_Some (db w) ->
  exists w' : world,
    reset_votes w = (Ok (Ack true None), w') /\
    (get_stats w').1
    = Ok (Stats {[ "1" := 0; "2" := 0; "3" := 0; "4" := 0; "5" := 0 ]} 0 0 []).
Proof.
  intros Hdb. exists (delete_many "feedback" w). split.
  - destruct Hdb as [h Hh]. unfold reset_votes. by rewrite Hh.
  - rewrite get_stats_configured by done. cbn [fst].
    unfold collection_docs, delete_many; cbn [store].
    by rewrite lookup_insert_eq.
Qed.

(** C7: when the database handle is [None], each of [submit_feedback],
    [get_stats] and [reset_votes] raises the error 500 "Database not
    configured" and leaves the world as it was: nothing is read, written or
    deleted, and what is stored is unchanged. *)
Theorem unconfigured_fails (w : world) :
  db w = None ->
  (forall (vote : VoteRequest) (now : datetime),
     submit_feedback vote now w
     = (Raise (HTTPException 500 "Database not configured"), w)) /\
  get_stats w = (Raise (HTTPException 500 "Database not configured"), w) /\
  reset_votes w = (Raise (HTTPException 500 "Database not configured"), w).
Proof.
  intros Hdb. unfold submit_feedback, get_stats, reset_votes.
  by rewrite Hdb.
Qed.

Lemma validate_vote_int (z : Z) :
  validate_vote (Some (PInt z))
  = if (1 <=? z) && (z <=? 5) then Ok {| vote_score := z |}
    else Raise RequestValidationError.
Proof. unfold validate_vote. by rewrite validate_int_int. Qed.

(** A body without the field [score] is rejected. *)
Lemma post_feedback_missing (now : datetime) (w : world) :
  post_feedback None now w = (Raise RequestValidationError, w).
Proof. reflexivity. Qed.

(** C6, as amended: a submitted score that the validation does not convert
    to an integer, or whose integer is outside 1..5, is rejected with a
    validation error and the world is as it was (no call reached the
    database); a score that the validation converts to an integer in 1..5,
    as it does every integer in 1..5, is accepted and persisted as exactly
    one new record with that integer as its score (the database handle being
    configured). *)
Theorem post_feedback_validates (v : pyval) (now : datetime) (w : world) :
  (validate_int v = None ->
   post_feedback (Some v) now w = (Raise RequestValidationError, w)) /\
  (forall s : Z, validate_int v = Some s -> ~ 1 <= s <= 5 ->
   post_feedback (Some v) now w = (Raise RequestValidationError, w)) /\
  (forall z : Z, v = PInt z -> ~ 1 <= z <= 5 ->
   post_feedback (Some v) now w = (Raise RequestValidationError, w)) /\
  (forall s : Z, validate_int v = Some s -> 1 <= s <= 5 -> is_Some (db w) ->
   exists (a : ack) (rec : document) (w' : world),
     post_feedback (Some v) now w = (Ok a, w') /\
     rec !! "score" = Some (PInt s) /\
     collection_docs "feedback" w' = collection_docs "feedback" w ++ [rec] /\
     (forall c : string, c <> "feedback" ->
        collection_docs c w' = collection_docs c w) /\
     calls w' = calls w ++ [InsertOne "feedback" rec]) /\
  (forall z : Z, v = PInt z -> 1 <= z <= 5 -> is_Some (db w) ->
   exists (a : ack) (rec : document) (w' : world),
     post_feedback (Some v) now w = (Ok a, w') /\
     rec !! "score" = Some (PInt z) /\
     collection_docs "feedback" w' = collection_docs "feedback" w ++ [rec] /\
     (forall c : string, c <> "feedback" ->
        collection_docs c w' = collection_docs c w) /\
     calls w' = calls w ++ [InsertOne "feedback" rec]).
Proof.
  assert (forall s : Z, validate_int v = Some s -> ~ 1 <= s <= 5 ->
            post_feedback (Some v) now w = (Raise RequestValidationError, w))
    as Hout.
  { intros s Hs Hr. unfold post_feedback, validate_vote. rewrite Hs.
    destruct ((1 <=? s) && (s <=? 5)) eqn:Hb; [| done].
    apply andb_true_iff in Hb as [?%Z.leb_le ?%Z.leb_le]. lia. }
  assert (forall s : Z, validate_int v = Some s -> 1 <= s <= 5 ->
            is_Some (db w) ->
            exists (a : ack) (rec : document) (w' : world),
              post_feedback (Some v) now w = (Ok a, w') /\
              rec !! "score" = Some (PInt s) /\
              collection_docs "feedback" w'
              = collection_docs "feedback" w ++ [rec] /\
              (forall c : string, c <> "feedback" ->
                 collection_docs c w' = collection_docs c w) /\
              calls w' = calls w ++ [InsertOne "feedback" rec]) as Hin.
  { intros s Hs Hr Hdb. unfold post_feedback, validate_vote. rewrite Hs.
    replace ((1 <=? s) && (s <=? 5)) with true
      by (symmetry; apply andb_true_iff; rewrite !Z.leb_le; lia).
    rewrite (submit_feedback_configured _ now w Hdb). cbn [vote_score].
    set (rec := ({[ "score" := PInt s; "created_at" := PDatetime now;
                    "updated_at" := PDatetime now ]} : document)).
    exists (Ack true (Some "Thanks for your feedback!")), rec,
      (create_document "feedback" rec w).
    split; [reflexivity |].
    split; [reflexivity |].
    split; [apply create_document_docs |].
    split; [| reflexivity].
    intros c Hc. by apply create_document_other. }
  split; [| split; [| split; [| split]]].
  - intros Hv. unfold post_feedback, validate_vote. by rewrite Hv.
  - exact Hout.
  - intros z -> Hr. by apply (Hout z).
  - exact Hin.
  - intros z -> Hr Hdb. by apply (Hin z).
Qed.

(** Without a handle no request to [POST /api/feedback] changes the world,
    whether its body validates or not. *)
Lemma unconfigured_post_unchanged (body_score : option pyval)
    (now : datetime) (w : world) :
  db w = None ->
  post_feedback body_score now w = (Raise RequestValidationError, w) \/
  post_feedback body_score now w
  = (Raise (HTTPException 500 "Database not configured"), w).
Proof.
  intros Hdb. unfold post_feedback.
  destruct (validate_vote body_score) as [vote | e] eqn:Hv.
  - right. unfold submit_feedback. by rewrite Hdb.
  - left. unfold validate_vote in Hv.
    destruct body_score as [v |]; [| by injection Hv as <-].
    destruct (validate_int v) as [z |]; [| by injection Hv as <-].
    destruct ((1 <=? z) && (z <=? 5)); [done | by injection Hv as <-].
Qed.

(** ** The diagnostics endpoint *)

Lemma str_length_app (a b : string) :
  String.length (a +:+ b) = (String.length a + String.length b)%nat.
Proof. induction a as [| c a IH]; simpl; [done | by rewrite IH]. Qed.




(** ** Further properties of the aggregator *)

Lemma counts_lookup (es : list entry) (key : string) (c : Z) :
  counts (stats_of es) !! key = Some c <->
  exists k : Z, 1 <= k <= 5 /\ key = str_of_int k /\ c = count_score k es.
Proof.
  unfold stats_of, tally_of, counts_of; cbn [counts t_counts]. split.
  - intros H.
    repeat (rewrite lookup_insert in H; case_decide as Hk;
            [injection H as <-; subst key | clear Hk]).
    + by exists 1.
    + by exists 2.
    + by exists 3.
    + by exists 4.
    + apply lookup_singleton_Some in H as [<- <-]. by exists 5.
  - intros (k & Hk & -> & ->).
    destruct (str_of_int_digit k Hk)
      as [[-> ->] | [[-> ->] | [[-> ->] | [[-> ->] | [-> ->]]]]];
      reflexivity.
Qed.

Lemma count_score_app (k : Z) (es1 es2 : list entry) :
  count_score k (es1 ++ es2) = count_score k es1 + count_score k es2.
Proof. unfold count_score. rewrite List.filter_app, length_app. lia. Qed.

Lemma sum_scores_app (es1 es2 : list entry) :
  sum_scores (es1 ++ es2) = sum_scores es1 + sum_scores es2.
Proof.
  unfold sum_scores. induction es1 as [| e es1 IH]; simpl; [done |].
  rewrite IH. lia.
Qed.

Lemma count_score_perm (k : Z) (es1 es2 : list entry) :
  es1 ≡ₚ es2 -> count_score k es1 = count_score k es2.
Proof.
  induction 1 as [| e l l' _ IH | e e' l | l l' l'' _ IH1 _ IH2];
    rewrite ?count_score_cons; lia.
Qed.

Lemma sum_scores_perm (es1 es2 : list entry) :
  es1 ≡ₚ es2 -> sum_scores es1 = sum_scores es2.
Proof.
  unfold sum_scores.
  induction 1 as [| e l l' _ IH | e e' l | l l' l'' _ IH1 _ IH2];
    simpl; lia.
Qed.

Lemma count_score_bounds (k : Z) (es : list entry) :
  0 <= count_score k es <= Z.of_nat (length es).
Proof.
  unfold count_score. pose proof (List.filter_length_le (fun e => score e =? k) es).
  lia.
Qed.

Lemma sum_scores_bounds (es : list entry) :
  Forall (fun e => 1 <= score e <= 5) es ->
  Z.of_nat (length es) <= sum_scores es <= 5 * Z.of_nat (length es).
Proof.
  unfold sum_scores. induction 1 as [| e es He _ IH]; simpl; lia.
Qed.

Lemma omap_kept_length_le (docs : list document) :
  (length (omap kept docs) <= length docs)%nat.
Proof.
  induction docs as [| d docs IH]; [done |].
  rewrite omap_cons_eq. destruct (kept d); simpl; lia.
Qed.

(** X1: the statistics of two collections of records add up: when the
    aggregation returns on each, it returns on the two put together, with
    the sum of the votes, of the scores and of each count, and with the
    entries of both timelines. *)
Theorem aggregate_app (docs1 docs2 : list document) (r1 r2 : stats) :
  aggregate docs1 = Ok r1 ->
  aggregate docs2 = Ok r2 ->
  exists r : stats,
    aggregate (docs1 ++ docs2) = Ok r /\
    total_votes r = total_votes r1 + total_votes r2 /\
    total_score r = total_score r1 + total_score r2 /\
    (forall (key : string) (c1 c2 : Z),
       counts r1 !! key = Some c1 -> counts r2 !! key = Some c2 ->
       counts r !! key = Some (c1 + c2)) /\
    timeline r ≡ₚ timeline r1 ++ timeline r2.
Proof.
  intros [H1 ->]%aggregate_ok [H2 ->]%aggregate_ok.
  exists (stats_of (omap kept (docs1 ++ docs2))). split.
  - apply aggregate_ok. split; [by apply Forall_app | done].
  - rewrite omap_app. cbn [total_votes total_score timeline stats_of].
    split; [rewrite length_app; lia |].
    split; [apply sum_scores_app |]. split.
    + intros key c1 c2 (k & Hk & -> & ->)%counts_lookup
        (k' & Hk' & Heq & ->)%counts_lookup.
      apply (inj pretty) in Heq as <-.
      apply counts_lookup. exists k. by rewrite count_score_app.
    + by rewrite !sorted_perm.
Qed.

(** X2: the counts, the number of votes and the total score do not depend
    on the order in which the records are retrieved. *)
Theorem aggregate_permutation (docs docs' : list document) (r : stats) :
  docs' ≡ₚ docs ->
  aggregate docs = Ok r ->
  exists r' : stats,
    aggregate docs' = Ok r' /\
    counts r' = counts r /\
    total_votes r' = total_votes r /\
    total_score r' = total_score r.
Proof.
  intros Hp [Hc ->]%aggregate_ok.
  exists (stats_of (omap kept docs')).
  assert (omap kept docs' ≡ₚ omap kept docs) as Hes by (by rewrite Hp).
  split; [| split; [| split]].
  - apply aggregate_ok. split; [| done].
    eapply Forall_Permutation; [| exact Hp | exact Hc]. done.
  - unfold stats_of, tally_of; cbn [counts t_counts].
    by rewrite !(count_score_perm _ _ _ Hes).
  - cbn [total_votes stats_of]. by rewrite Hes.
  - cbn [total_score stats_of]. by apply sum_scores_perm.
Qed.

(** X3: in every response the number of votes is at most the number of
    records, every count lies between 0 and the number of votes, and the
    total score lies between the number of votes and five times it. *)
Theorem stats_bounds (docs : list document) (r : stats) :
  aggregate docs = Ok r ->
  0 <= total_votes r <= Z.of_nat (length docs) /\
  total_votes r <= total_score r <= 5 * total_votes r /\
  forall (key : string) (c : Z),
    counts r !! key = Some c -> 0 <= c <= total_votes r.
Proof.
  intros [_ ->]%aggregate_ok. cbn [total_votes total_score stats_of].
  split; [| split].
  - pose proof (omap_kept_length_le docs). lia.
  - apply sum_scores_bounds, omap_kept_in_range.
  - intros key c (k & _ & _ & ->)%counts_lookup. apply count_score_bounds.
Qed.

(** X4: the aggregation stops at the first record whose score does not
    convert: the exception of that record is the one raised, whatever the
    records after it are. *)
Theorem aggregate_first_error (docs1 docs2 : list document) (d : document)
    (e : exn) :
  Forall (fun d' => coercible d' = true) docs1 ->
  score_of d = Raise e ->
  aggregate (docs1 ++ d :: docs2) = Raise e.
Proof.
  intros H1 Hd. rewrite aggregate_spec.
  assert (kept_entries (docs1 ++ d :: docs2) = Raise e) as ->; [| done].
  induction H1 as [| d1 docs1 Hd1 _ IH]; cbn [app kept_entries].
  - by rewrite Hd.
  - apply coercible_score_of in Hd1 as [s ->]. cbn. by rewrite IH.
Qed.

Lemma str_leb_refl (a : string) : String.leb a a = true.
Proof. by destruct (String.leb_total a a). Qed.

Lemma insert_by_filter {A : Type} (key : A -> string) (k : string) (x : A)
    (l : list A) :
  List.filter (fun y => String.eqb (key y) k) (insert_by key x l)
  = List.filter (fun y => String.eqb (key y) k) (x :: l).
Proof.
  induction l as [| y l IH]; [done |]. cbn [insert_by].
  destruct (String.leb (key x) (key y)) eqn:Hxy; [done |].
  cbn [List.filter] in *. rewrite IH.
  destruct (String.eqb (key x) k) eqn:Hx; [| done].
  destruct (String.eqb (key y) k) eqn:Hy; [| done].
  apply String.eqb_eq in Hx, Hy. rewrite Hx, Hy, str_leb_refl in Hxy. done.
Qed.

Lemma sorted_filter {A : Type} (key : A -> string) (k : string) (l : list A) :
  List.filter (fun y => String.eqb (key y) k) (sorted key l)
  = List.filter (fun y => String.eqb (key y) k) l.
Proof.
  induction l as [| x l IH]; [done |].
  cbn [sorted foldr]. fold (sorted key l). rewrite insert_by_filter.
  cbn [List.filter]. by rewrite IH.
Qed.

(** X5: the sort of the timeline is stable: the entries that carry the same
    timestamp text stand in the timeline in the order in which their
    records were retrieved. *)
Theorem timeline_stable (docs : list document) (r : stats) (ts : string) :
  aggregate docs = Ok r ->
  List.filter (fun e => String.eqb (timestamp e) ts) (timeline r)
  = List.filter (fun e => String.eqb (timestamp e) ts) (omap kept docs).
Proof.
  intros [_ ->]%aggregate_ok. cbn [timeline stats_of]. apply sorted_filter.
Qed.

Lemma kept_insert_other (d : document) (key : string) (v : pyval) :
  key <> "score" -> key <> "created_at" -> kept (<[key := v]> d) = kept d.
Proof.
  intros H1 H2. unfold kept, score_of, entry_of, dict_get.
  by rewrite !lookup_insert_ne.
Qed.

(** X6: only the fields [score] and [created_at] of a record count: setting
    any other field of the records (an [_id], [updated_at]) changes neither
    the outcome of the aggregation nor its response. *)
Theorem aggregate_other_fields (docs : list document) (key : string)
    (v : document -> pyval) :
  key <> "score" -> key <> "created_at" ->
  aggregate ((fun d => <[key := v d]> d) <$> docs) = aggregate docs.
Proof.
  intros H1 H2. rewrite !aggregate_spec. f_equal.
  induction docs as [| d docs IH]; [done |].
  rewrite fmap_cons. cbn [kept_entries]. rewrite IH.
  assert (score_of (<[key := v d]> d) = score_of d) as ->
    by (unfold score_of, dict_get; by rewrite lookup_insert_ne).
  assert (forall s, entry_of (<[key := v d]> d) s = entry_of d s) as Hentry
    by (intros s; unfold entry_of, dict_get; by rewrite lookup_insert_ne).
  destruct (score_of d) as [s | e]; [| done]. cbn.
  by rewrite Hentry.
Qed.

(** ** Further properties of the handlers *)

Lemma vote_record_kept (s : Z) (now : datetime) :
  1 <= s <= 5 -> kept (vote_record s now) = Some (Entry (isoformat now) s).
Proof.
  intros Hs%in_range_spec. unfold kept.
  assert (score_of (vote_record s now) = Ok s) as -> by reflexivity.
  cbv beta iota. by rewrite Hs.
Qed.

Lemma vote_record_coercible (s : Z) (now : datetime) :
  coercible (vote_record s now) = true.
Proof. reflexivity. Qed.

Lemma wellformed_coercible (docs : list document) :
  Forall (fun d => exists (s : Z) (now : datetime),
                     1 <= s <= 5 /\ d = vote_record s now) docs ->
  Forall (fun d => coercible d = true) docs /\
  length (omap kept docs) = length docs.
Proof.
  induction 1 as [| d docs (s & now & Hs & ->) _ [IH1 IH2]]; [done |].
  split; [constructor; [apply vote_record_coercible | done] |].
  rewrite omap_cons_eq, vote_record_kept by done. cbn. by rewrite IH2.
Qed.

(** X7: with a handle, a vote of score [s] in 1..5 adds exactly one to the
    number of votes and to the count of [s], adds [s] to the total score,
    leaves the other counts, and adds one timeline entry that carries the
    [isoformat] of the clock reading. *)
Theorem submit_then_stats (s : Z) (now : datetime) (w : world) (r : stats) :
  is_Some (db w) ->
  1 <= s <= 5 ->
  (get_stats w).1 = Ok r ->
  exists (w' : world) (r' : stats),
    submit_feedback {| vote_score := s |} now w
    = (Ok (Ack true (Some "Thanks for your feedback!")), w') /\
    (get_stats w').1 = Ok r' /\
    total_votes r' = total_votes r + 1 /\
    total_score r' = total_score r + s /\
    (forall (key : string) (c : Z),
       counts r !! key = Some c ->
       counts r' !! key
       = Some (if decide (key = str_of_int s) then c + 1 else c)) /\
    timeline r' ≡ₚ Entry (isoformat now) s :: timeline r.
Proof.
  intros Hdb Hs Hr.
  rewrite get_stats_configured in Hr by done. cbn [fst] in Hr.
  apply aggregate_ok in Hr as [Hc ->].
  set (docs := collection_docs "feedback" w) in *.
  set (w' := create_document "feedback" (vote_record s now) w).
  set (e := Entry (isoformat now) s).
  assert (omap kept (docs ++ [vote_record s now]) = omap kept docs ++ [e])
    as Hes.
  { rewrite omap_app. f_equal. cbn. by rewrite vote_record_kept. }
  exists w', (stats_of (omap kept docs ++ [e])).
  split; [by apply submit_feedback_configured |]. split.
  { rewrite get_stats_configured by done. cbn [fst].
    unfold w'. rewrite create_document_docs. fold docs.
    apply aggregate_ok. split; [| by rewrite Hes].
    apply Forall_app. split; [done |].
    constructor; [apply vote_record_coercible | done]. }
  cbn [total_votes total_score timeline stats_of].
  split; [rewrite length_app; cbn; lia |].
  split; [by rewrite sum_scores_snoc |]. split.
  - intros key c (k & Hk & -> & ->)%counts_lookup.
    apply counts_lookup. exists k. split; [done |]. split; [done |].
    rewrite count_score_snoc. cbn [score e].
    case_decide as Hks.
    + apply (inj pretty) in Hks as ->. by rewrite Z.eqb_refl.
    + destruct (s =? k) eqn:Hsk; [| lia].
      apply Z.eqb_eq in Hsk as ->. done.
  - rewrite !sorted_perm. by rewrite Permutation_app_comm.
Qed.

(** X8: with a handle, [reset_votes] acknowledges, empties the feedback
    collection whatever it held with one call, leaves the other collections
    as they were, and the statistics asked for next are those of no
    record. *)
Theorem reset_then_stats (w : world) :
  is_Some (db w) ->
  exists w' : world,
    reset_votes w = (Ok (Ack true None), w') /\
    collection_docs "feedback" w' = [] /\
    (forall c : string, c <> "feedback" ->
       collection_docs c w' = collection_docs c w) /\
    calls w' = calls w ++ [DeleteMany "feedback"] /\
    (get_stats w').1
    = Ok (Stats {[ "1" := 0; "2" := 0; "3" := 0; "4" := 0; "5" := 0 ]} 0 0 []).
Proof.
  intros Hdb. exists (delete_many "feedback" w).
  assert (collection_docs "feedback" (delete_many "feedback" w) = []) as He.
  { unfold collection_docs, delete_many; cbn [store].
    by rewrite lookup_insert_eq. }
  split; [| split; [done | split; [| split; [done |]]]].
  - destruct Hdb as [h Hh]. unfold reset_votes. by rewrite Hh.
  - intros c Hc. unfold collection_docs, delete_many; cbn [store].
    by rewrite lookup_insert_ne.
  - rewrite get_stats_configured by done. cbn [fst]. by rewrite He.
Qed.

Lemma validate_vote_range (body_score : option pyval) (vote : VoteRequest) :
  validate_vote body_score = Ok vote -> 1 <= vote_score vote <= 5.
Proof.
  unfold validate_vote. destruct body_score as [v |]; [| done].
  destruct (validate_int v) as [z |]; [| done].
  destruct ((1 <=? z) && (z <=? 5)) eqn:Hr; [| done].
  intros [= <-]. cbn. apply andb_true_iff in Hr as [?%Z.leb_le ?%Z.leb_le].
  lia.
Qed.

Lemma serve_db (q : request) (w : world) : db (serve q w) = db w.
Proof.
  destruct q as [body now | |]; cbn [serve].
  - unfold post_feedback, submit_feedback.
    destruct (validate_vote body); [| done].
    destruct (db w) eqn:Hdb; cbn; congruence.
  - unfold get_stats. destruct (db w) eqn:Hdb; cbn; congruence.
  - unfold reset_votes. destruct (db w) eqn:Hdb; cbn; congruence.
Qed.

Lemma serve_wellformed (q : request) (w : world) :
  feedback_wellformed w -> feedback_wellformed (serve q w).
Proof.
  unfold feedback_wellformed. intros Hw.
  destruct q as [body now | |]; cbn [serve].
  - unfold post_feedback, submit_feedback.
    destruct (validate_vote body) as [vote | e] eqn:Hv; [| done].
    destruct (db w); [| done]. cbn [snd].
    rewrite create_document_docs. apply Forall_app. split; [done |].
    constructor; [| done].
    exists (vote_score vote), now. split; [| done].
    by eapply validate_vote_range.
  - unfold get_stats. by destruct (db w).
  - unfold reset_votes. destruct (db w); [| done]. cbn [snd].
    unfold collection_docs, delete_many; cbn [store].
    by rewrite lookup_insert_eq.
Qed.

(** X9: the feedback that the endpoints themselves wrote never makes the
    aggregation raise. From a world with a handle whose feedback records
    were all written by [submit_feedback] (none, for one), after any requests
    to the three data endpoints, with any bodies, the records are still of
    that kind, and [get_stats] returns a response that counts every stored
    record. *)
Theorem served_feedback_counts (qs : list request) (w : world) :
  is_Some (db w) ->
  feedback_wellformed w ->
  feedback_wellformed (serve_all qs w) /\
  exists r : stats,
    (get_stats (serve_all qs w)).1 = Ok r /\
    total_votes r
    = Z.of_nat (length (collection_docs "feedback" (serve_all qs w))).
Proof.
  intros Hdb Hw.
  assert (is_Some (db (serve_all qs w)) /\ feedback_wellformed (serve_all qs w))
    as [Hdb' Hw'].
  { unfold serve_all. revert w Hdb Hw.
    induction qs as [| q qs IH]; intros w Hdb Hw; [done |].
    cbn [foldl]. apply IH; [by rewrite serve_db | by apply serve_wellformed]. }
  split; [done |].
  apply wellformed_coercible in Hw' as [Hc Hlen].
  exists (stats_of (omap kept (collection_docs "feedback" (serve_all qs w)))).
  split.
  - rewrite get_stats_configured by done. cbn [fst]. by apply aggregate_ok.
  - cbn [total_votes stats_of]. by rewrite Hlen.
Qed.

(** ** Further properties of the diagnostics *)

Lemma env_flag_cases (v : option string) :
  env_flag v = "✅ Set" /\ (exists c s, v = Some (String c s)) \/
  env_flag v = "❌ Not Set" /\ (v = None \/ v = Some "").
Proof. destruct v as [[| c s] |]; cbn; eauto 6. Qed.

Lemma test_database_env (imported : outcome (option db_handle))
    (env_url env_name : option string) :
  exists r : diagnostics,
    test_database imported env_url env_name = Returned r /\
    backend r = "✅ Running" /\
    database_url r = Some (env_flag env_url) /\
    database_name r = Some (env_flag env_name).
Proof.
  unfold test_database, outer_try_except, outer_try, inner_try_except,
    inner_try.
  destruct imported as [[[[[n | e] |] [names | e']] |] | e];
    cbn -[firstn str_take String.append];
    try destruct (is_import_error e);
    (eexists; split; [reflexivity |]); repeat split.
Qed.

(** X10: the response of [test_database] tells of the two environment
    variables only whether each holds a non-empty text: the fields
    [database_url] and [database_name] are one of the two marks, decided by
    the environment alone; the name of the handle and the texts of the
    variables are never in them. *)
Theorem diagnostics_env_marks (imported : outcome (option db_handle))
    (env_url env_name : option string) :
  exists r : diagnostics,
    test_database imported env_url env_name = Returned r /\
    backend r = "✅ Running" /\
    (database_url r = Some "✅ Set" /\ (exists c s, env_url = Some (String c s))
     \/ database_url r = Some "❌ Not Set" /\
        (env_url = None \/ env_url = Some "")) /\
    (database_name r = Some "✅ Set" /\
     (exists c s, env_name = Some (String c s))
     \/ database_name r = Some "❌ Not Set" /\
        (env_name = None \/ env_name = Some "")).
Proof.
  destruct (test_database_env imported env_url env_name)
    as (r & Hr & Hb & Hu & Hn).
  exists r. split; [done |]. split; [done |]. rewrite Hu, Hn.
  split.
  - destruct (env_flag_cases env_url) as [[-> H] | [-> H]]; eauto.
  - destruct (env_flag_cases env_name) as [[-> H] | [-> H]]; eauto.
Qed.

(** X11: the response says [Connected] exactly when a handle was imported
    and reading its [name] did not raise; it lists collections only when
    the listing returned, and then the first ten names of the listing, all
    of them when they are at most ten, under the status
    [Connected & Working]. *)
Theorem diagnostics_connection (imported : outcome (option db_handle))
    (env_url env_name : option string) :
  exists r : diagnostics,
    test_database imported env_url env_name = Returned r /\
    (connection_status r = "Connected" <->
     exists h : db_handle,
       imported = Returned (Some h) /\
       forall e : raised, db_name h <> Some (Raised e)) /\
    (forall (h : db_handle) (names : list string),
       imported = Returned (Some h) ->
       (forall e : raised, db_name h <> Some (Raised e)) ->
       list_collection_names h = Returned names ->
       collections r = take 10 names /\
       ((length names <= 10)%nat -> collections r = names) /\
       database r = "✅ Connected & Working") /\
    (collections r <> [] ->
     exists (h : db_handle) (names : list string),
       imported = Returned (Some h) /\
       list_collection_names h = Returned names).
Proof.
  unfold test_database, outer_try_except, outer_try, inner_try_except,
    inner_try.
  destruct imported as [[[[[n | e] |] [names | e']] |] | e];
    cbn -[firstn str_take String.append];
    try destruct (is_import_error e) eqn:Hie;
    (eexists; split; [reflexivity |]);
    cbn -[firstn str_take String.append];
    (split; [split |]).
  all: try (intros _; eexists; split; [reflexivity |]; done).
  all: try (intros (h & [=] & Hn); subst h; cbn in Hn; by destruct (Hn e)).
  all: try done.
  all: try (intros (h & [=] & _)).
  all: split.
  all: try (intros h0 names0 [= <-] Hn [=]; subst).
  all: try (cbn in Hn; by destruct (Hn e)).
  all: try (split; [done | split; [by apply firstn_all2 | done]]).
  all: try done.
  all: try (intros _; eexists _, _; split; reflexivity).
Qed.

Lemma str_take_all (n : nat) (s : string) :
  (String.length s <= n)%nat -> str_take n s = s.
Proof.
  revert s. induction n as [| n IH]; intros [| c s]; cbn; try done; try lia.
  intros H. rewrite IH; [done | lia].
Qed.

Lemma str_take_prefix (n : nat) (s : string) :
  exists rest : string,
    s = str_take n s +:+ rest /\
    String.length (str_take n s) = Nat.min n (String.length s).
Proof.
  revert s. induction n as [| n IH]; intros s.
  - exists s. by destruct s.
  - destruct s as [| c s]; [by exists "" |].
    destruct (IH s) as (rest & Hs & Hl). exists rest.
    split.
    { change (String c s = String c (str_take n s +:+ rest)).
      by rewrite <- Hs. }
    cbn [str_take String.length]. by rewrite Hl.
Qed.

(** X12: when listing the collections raises an exception whose text is in
    ASCII, the status carries that text after its prefix: the whole text
    when it has at most 50 characters, and otherwise exactly its first 50
    characters. *)
Theorem diagnostics_error_text (h : db_handle) (e : raised)
    (env_url env_name : option string) :
  (forall e' : raised, db_name h <> Some (Raised e')) ->
  list_collection_names h = Raised e ->
  ascii_text (exc_text e) = true ->
  exists (r : diagnostics) (shown rest : string),
    test_database (Returned (Some h)) env_url env_name = Returned r /\
    database r = "⚠️  Connected but Error: " +:+ shown /\
    exc_text e = shown +:+ rest /\
    String.length shown = Nat.min 50 (String.length (exc_text e)) /\
    ((String.length (exc_text e) <= 50)%nat -> shown = exc_text e) /\
    collections r = [] /\
    connection_status r = "Connected".
Proof.
  intros Hn Hl _.
  destruct (str_take_prefix 50 (exc_text e)) as (rest & Hs & Hlen).
  unfold test_database, outer_try_except, outer_try, inner_try_except,
    inner_try.
  destruct h as [[[n | e'] |] l]; cbn in Hl; subst l;
    [| by destruct (Hn e') |];
    cbn -[str_take String.append];
    eexists _, (str_take 50 (exc_text e)), rest;
    (split; [reflexivity |]); cbn -[str_take String.append];
    repeat split; try done; apply str_take_all.
Qed.

(** ** [isoformat] keeps the order of time *)

Lemma str_app_assoc (a b c : string) : (a +:+ b) +:+ c = a +:+ (b +:+ c).
Proof.
  induction a as [| x a IH]; [done |].
  change (String x ((a +:+ b) +:+ c) = String x (a +:+ (b +:+ c))).
  by rewrite IH.
Qed.

Lemma str_app_nil_r (a : string) : a +:+ "" = a.
Proof.
  induction a as [| x a IH]; [done |].
  change (String x (a +:+ "") = String x a). by rewrite IH.
Qed.

Lemma str_compare_refl (s : string) : String.compare s s = Eq.
Proof.
  induction s as [| c s IH]; cbn; [done |].
  unfold Ascii.compare. by rewrite N.compare_refl.
Qed.

Lemma str_compare_cons (c : ascii) (x y : string) :
  String.compare (String c x) (String c y) = String.compare x y.
Proof. cbn. unfold Ascii.compare. by rewrite N.compare_refl. Qed.

Lemma str_compare_app (a a' x y : string) :
  String.length a = String.length a' ->
  String.compare (a +:+ x) (a' +:+ y)
  = lex (String.compare a a') (String.compare x y).
Proof.
  revert a'. induction a as [| c a IH]; intros [| c' a'] Hl; try done.
  cbn in Hl.
  change (match Ascii.compare c c' with
          | Eq => String.compare (a +:+ x) (a' +:+ y)
          | Lt => Lt
          | Gt => Gt
          end
          = lex match Ascii.compare c c' with
                | Eq => String.compare a a'
                | Lt => Lt
                | Gt => Gt
                end (String.compare x y)).
  destruct (Ascii.compare c c'); try done.
  apply IH. lia.
Qed.

Lemma pretty_N_char_compare (x y : N) :
  (x < 10)%N -> (y < 10)%N ->
  Ascii.compare (pretty_N_char x) (pretty_N_char y) = (x ?= y)%N.
Proof.
  intros Hx Hy.
  assert (x = 0 \/ x = 1 \/ x = 2 \/ x = 3 \/ x = 4 \/ x = 5 \/ x = 6
          \/ x = 7 \/ x = 8 \/ x = 9)%N as Hcx by lia.
  assert (y = 0 \/ y = 1 \/ y = 2 \/ y = 3 \/ y = 4 \/ y = 5 \/ y = 6
          \/ y = 7 \/ y = 8 \/ y = 9)%N as Hcy by lia.
  destruct Hcx as [-> | [-> | [-> | [-> | [-> | [-> | [-> | [-> | [-> | ->]]]]]]]]];
    destruct Hcy as [-> | [-> | [-> | [-> | [-> | [-> | [-> | [-> | [-> | ->]]]]]]]]];
    reflexivity.
Qed.

Lemma fixed_digits_length (w : nat) (n : N) :
  String.length (fixed_digits w n) = w.
Proof.
  revert n. induction w as [| w IH]; intros n; [done |].
  cbn [fixed_digits]. rewrite str_length_app, IH. cbn. lia.
Qed.

Lemma compare_div_mod (n m : N) :
  lex (n / 10 ?= m / 10)%N (n mod 10 ?= m mod 10)%N = (n ?= m)%N.
Proof.
  pose proof (N.div_mod' n 10) as Hn. pose proof (N.div_mod' m 10) as Hm.
  assert (n mod 10 < 10)%N as Hrn by (by apply N.mod_lt).
  assert (m mod 10 < 10)%N as Hrm by (by apply N.mod_lt).
  set (qn := (n / 10)%N) in *. set (rn := (n mod 10)%N) in *.
  set (qm := (m / 10)%N) in *. set (rm := (m mod 10)%N) in *.
  destruct (N.compare_spec qn qm) as [H | H | H]; cbn [lex];
    destruct (N.compare_spec rn rm) as [H' | H' | H'];
    symmetry;
    first [apply N.compare_eq_iff | apply N.compare_lt_iff
          | apply N.compare_gt_iff]; lia.
Qed.

Lemma fixed_digits_compare (w : nat) (n m : N) :
  (n < 10 ^ N.of_nat w)%N -> (m < 10 ^ N.of_nat w)%N ->
  String.compare (fixed_digits w n) (fixed_digits w m) = (n ?= m)%N.
Proof.
  revert n m. induction w as [| w IH]; intros n m Hn Hm.
  - cbn in *. assert (n = 0 /\ m = 0)%N as [-> ->] by lia. done.
  - rewrite Nat2N.inj_succ, N.pow_succ_r' in Hn, Hm.
    cbn [fixed_digits].
    rewrite str_compare_app by (by rewrite !fixed_digits_length).
    rewrite IH by (apply N.Div0.div_lt_upper_bound; lia).
    rewrite <- (compare_div_mod n m). f_equal.
    cbn. rewrite pretty_N_char_compare by (by apply N.mod_lt).
    by destruct (n mod 10 ?= m mod 10)%N.
Qed.

Lemma pretty_N_go_app (n : N) (s : string) :
  pretty_N_go n s = pretty_N_go n "" +:+ s.
Proof.
  revert s. induction n as [n IH] using (well_founded_induction N.lt_wf_0).
  intros s. destruct (N.eq_dec n 0%N) as [-> | Hn].
  - by rewrite !pretty_N_go_0.
  - rewrite (pretty_N_go_step n s), (pretty_N_go_step n "") by lia.
    assert (n / 10 < n)%N as Hlt by (apply N.div_lt; lia).
    rewrite (IH _ Hlt (String _ s)), (IH _ Hlt (String _ "")).
    by rewrite str_app_assoc.
Qed.

Lemma zeros_succ (k : nat) :
  String.concat "" (replicate (S k) "0")
  = String "0" (String.concat "" (replicate k "0")).
Proof. by destruct k. Qed.

Lemma zeros_snoc (k : nat) :
  String.concat "" (replicate k "0") +:+ "0"
  = String.concat "" (replicate (S k) "0").
Proof.
  induction k as [| k IH]; [done |].
  rewrite !zeros_succ in *.
  change (String "0" (String.concat "" (replicate k "0") +:+ "0")
          = String "0" (String "0" (String.concat "" (replicate k "0")))).
  by rewrite IH.
Qed.

Lemma fixed_digits_pretty (w : nat) (n : N) :
  (n < 10 ^ N.of_nat w)%N ->
  (String.length (pretty_N_go n "") <= w)%nat /\
  fixed_digits w n
  = String.concat "" (replicate (w - String.length (pretty_N_go n "")) "0")
    +:+ pretty_N_go n "".
Proof.
  revert n. induction w as [| w IH]; intros n Hn.
  - cbn in Hn. assert (n = 0)%N as -> by lia. by rewrite pretty_N_go_0.
  - rewrite Nat2N.inj_succ, N.pow_succ_r' in Hn. cbn [fixed_digits].
    destruct (IH (n / 10)%N) as [Hl Hf];
      [apply N.Div0.div_lt_upper_bound; lia |].
    rewrite Hf. destruct (N.eq_dec n 0%N) as [-> | Hn0].
    + change (0 / 10)%N with 0%N. change (0 mod 10)%N with 0%N.
      rewrite !pretty_N_go_0. cbn [String.length].
      split; [lia |]. rewrite !Nat.sub_0_r.
      change (String (pretty_N_char 0) "") with "0".
      by rewrite !str_app_nil_r, zeros_snoc.
    + rewrite (pretty_N_go_step n "") by lia.
      rewrite (pretty_N_go_app (n / 10)). rewrite str_length_app.
      cbn [String.length]. split; [lia |].
      rewrite str_app_assoc. do 3 f_equal. lia.
Qed.

Lemma zero_pad_fixed (w : nat) (n : N) :
  (0 < w)%nat -> (n < 10 ^ N.of_nat w)%N -> zero_pad w n = fixed_digits w n.
Proof.
  intros Hw Hn. destruct (fixed_digits_pretty w n Hn) as [Hl ->].
  unfold zero_pad, pretty, pretty_N. case_decide as H0.
  - subst n. rewrite pretty_N_go_0. cbn [String.length].
    rewrite Nat.sub_0_r. destruct w as [| w]; [lia |].
    cbn [Nat.sub]. rewrite Nat.sub_0_r.
    rewrite <- zeros_snoc. by rewrite str_app_assoc.
  - done.
Qed.

Lemma zero_pad_length (w : nat) (n : N) :
  (0 < w)%nat -> (n < 10 ^ N.of_nat w)%N -> String.length (zero_pad w n) = w.
Proof.
  intros Hw Hn. rewrite zero_pad_fixed by done. apply fixed_digits_length.
Qed.

Lemma zero_pad_compare (w : nat) (n m : N) :
  (0 < w)%nat -> (n < 10 ^ N.of_nat w)%N -> (m < 10 ^ N.of_nat w)%N ->
  String.compare (zero_pad w n) (zero_pad w m) = (n ?= m)%N.
Proof.
  intros Hw Hn Hm. rewrite !zero_pad_fixed by done.
  by apply fixed_digits_compare.
Qed.

Lemma format_offset_head (off : option Z) :
  format_offset off = "" \/
  exists rest : string,
    format_offset off = String "+" rest \/ format_offset off = String "-" rest.
Proof.
  destruct off as [o |]; [right | by left].
  unfold format_offset. destruct (o <? 0); eexists; [right | left]; reflexivity.
Qed.

Lemma pad_sep_compare (w : nat) (n m : N) (c : ascii) (x y : string) :
  (0 < w)%nat -> (n < 10 ^ N.of_nat w)%N -> (m < 10 ^ N.of_nat w)%N ->
  String.compare (zero_pad w n +:+ String c x) (zero_pad w m +:+ String c y)
  = lex (n ?= m)%N (String.compare x y).
Proof.
  intros Hw Hn Hm.
  rewrite str_compare_app by (by rewrite !zero_pad_length).
  by rewrite zero_pad_compare, str_compare_cons.
Qed.

Lemma fraction_compare (ua ub : N) (off : option Z) :
  (ua < 1000000)%N -> (ub < 1000000)%N ->
  String.compare
    ((if (ua =? 0)%N then "" else "." +:+ zero_pad 6 ua) +:+ format_offset off)
    ((if (ub =? 0)%N then "" else "." +:+ zero_pad 6 ub) +:+ format_offset off)
  = (ua ?= ub)%N.
Proof.
  intros Ha Hb.
  assert (ua < 10 ^ N.of_nat 6)%N as Ha'
    by (change (10 ^ N.of_nat 6)%N with 1000000%N; lia).
  assert (ub < 10 ^ N.of_nat 6)%N as Hb'
    by (change (10 ^ N.of_nat 6)%N with 1000000%N; lia).
  destruct (N.eqb_spec ua 0) as [-> | Hna];
    destruct (N.eqb_spec ub 0) as [-> | Hnb].
  - by rewrite str_compare_refl.
  - change (String.compare (format_offset off)
              (String "." (zero_pad 6 ub +:+ format_offset off))
            = (0 ?= ub)%N).
    assert ((0 ?= ub)%N = Lt) as -> by (apply N.compare_lt_iff; lia).
    by destruct (format_offset_head off) as [-> | (rest & [-> | ->])].
  - change (String.compare
              (String "." (zero_pad 6 ua +:+ format_offset off))
              (format_offset off)
            = (ua ?= 0)%N).
    assert ((ua ?= 0)%N = Gt) as -> by (apply N.compare_gt_iff; lia).
    by destruct (format_offset_head off) as [-> | (rest & [-> | ->])].
  - change (String.compare
              (String "." (zero_pad 6 ua +:+ format_offset off))
              (String "." (zero_pad 6 ub +:+ format_offset off))
            = (ua ?= ub)%N).
    rewrite str_compare_cons.
    rewrite str_compare_app by (rewrite !zero_pad_length; (done || lia)).
    rewrite zero_pad_compare, str_compare_refl by (done || lia).
    by destruct (ua ?= ub)%N.
Qed.

(** The texts of two valid datetimes of the same offset compare as the
    datetimes do in time. *)
Lemma isoformat_compare (a b : datetime) :
  datetime_valid a -> datetime_valid b -> utcoffset a = utcoffset b ->
  String.compare (isoformat a) (isoformat b) = dt_compare a b.
Proof.
  unfold datetime_valid, isoformat, isoformat_sep, dt_compare.
  destruct a as [ya ma da ha mia sa ua oa], b as [yb mb db hb mib sb ub ob].
  cbn [year month day hour minute second microsecond utcoffset].
  intros Ha Hb ->.
  repeat match goal with
         | |- context [String (?c) "" +:+ ?r] =>
             change (String c "" +:+ r) with (String c r)
         end.
  assert (10 ^ N.of_nat 4 = 10000)%N as H4 by reflexivity.
  assert (10 ^ N.of_nat 2 = 100)%N as H2 by reflexivity.
  rewrite (pad_sep_compare 4) by (rewrite ?H4; lia). f_equal.
  rewrite (pad_sep_compare 2) by (rewrite ?H2; lia). f_equal.
  rewrite (pad_sep_compare 2) by (rewrite ?H2; lia). f_equal.
  rewrite (pad_sep_compare 2) by (rewrite ?H2; lia). f_equal.
  rewrite (pad_sep_compare 2) by (rewrite ?H2; lia). f_equal.
  rewrite str_compare_app
    by (rewrite !zero_pad_length; rewrite ?H2; (done || lia)).
  rewrite zero_pad_compare by (rewrite ?H2; lia). f_equal.
  apply fraction_compare; lia.
Qed.

Lemma str_le_compare (a b : string) : str_le a b <-> String.compare a b <> Gt.
Proof.
  unfold str_le, String.leb. destruct (String.compare a b); split; done.
Qed.

(** X13: [isoformat] keeps the order of time. For two datetimes with valid
    fields and the same offset, the text of the one is at most the text of
    the other in the order of [str] exactly when it is not later in time,
    and the texts are equal exactly when no field differs; so a sort on the
    timestamp texts is a sort by time. *)
Theorem isoformat_order (a b : datetime) :
  datetime_valid a -> datetime_valid b -> utcoffset a = utcoffset b ->
  (str_le (isoformat a) (isoformat b) <-> dt_compare a b <> Gt) /\
  (isoformat a = isoformat b <-> dt_compare a b = Eq).
Proof.
  intros Ha Hb Ho. rewrite <- (isoformat_compare a b Ha Hb Ho).
  split; [apply str_le_compare |]. split.
  - intros ->. apply str_compare_refl.
  - apply String.compare_eq_iff.
Qed.

Lemma submit_all_docs (votes : list (Z * datetime)) (w : world) :
  is_Some (db w) ->
  exists w' : world,
    submit_all votes w = Ok w' /\
    db w' = db w /\
    collection_docs "feedback" w'
    = collection_docs "feedback" w
      ++ ((fun v => vote_record v.1 v.2) <$> votes).
Proof.
  revert w. induction votes as [| [s now] votes IH]; intros w Hdb.
  - exists w. by rewrite app_nil_r.
  - cbn [submit_all]. rewrite submit_feedback_configured by done.
    destruct (IH (create_document "feedback" (vote_record s now) w) Hdb)
      as (w' & Hs & Hd & Hc).
    exists w'. split; [exact Hs |]. split; [exact Hd |].
    rewrite Hc, create_document_docs, <- app_assoc. done.
Qed.

Lemma omap_kept_votes (votes : list (Z * datetime)) :
  Forall (fun v => 1 <= v.1 <= 5) votes ->
  omap kept ((fun v => vote_record v.1 v.2) <$> votes)
  = (fun v => Entry (isoformat v.2) v.1) <$> votes.
Proof.
  induction 1 as [| v votes Hv _ IH]; [done |].
  rewrite !fmap_cons, omap_cons_eq, vote_record_kept by done.
  by rewrite IH.
Qed.

Lemma votes_increasing (votes : list (Z * datetime)) :
  Forall (fun v => datetime_valid v.2 /\ utcoffset v.2 = Some 0) votes ->
  StronglySorted (fun u v => dt_compare u.2 v.2 = Lt) votes ->
  StronglySorted
    (fun a b => String.compare (timestamp a) (timestamp b) = Lt)
    ((fun v => Entry (isoformat v.2) v.1) <$> votes).
Proof.
  intros Hv Hs.
  induction Hs as [| v votes Hs IH Hle]; [constructor |].
  apply Forall_cons in Hv as [[Hvv Hvo] Hv].
  rewrite fmap_cons. constructor; [by apply IH |].
  apply Forall_fmap, Forall_forall. intros u Hu. cbn.
  rewrite Forall_forall in Hle, Hv.
  destruct (Hv u Hu) as [Huv Huo].
  rewrite isoformat_compare by congruence.
  by apply Hle.
Qed.

(** A list in ascending order of its keys that holds the elements of a
    list whose keys increase is that list. *)
Lemma ascending_increasing_eq {A : Type} (key : A -> string) (l e : list A) :
  ascending key l ->
  StronglySorted (fun a b => String.compare (key a) (key b) = Lt) e ->
  l ≡ₚ e ->
  l = e.
Proof.
  unfold ascending. intros Hl He. revert l Hl.
  induction He as [| y e He IH Hy]; intros l Hl Hp.
  - by apply Permutation_nil_r.
  - destruct l as [| x l]; [by apply Permutation_nil_cons in Hp |].
    apply StronglySorted_inv in Hl as [Hl Hx].
    rewrite Forall_forall in Hx, Hy.
    assert (x = y) as ->.
    { assert (x ∈ y :: e) as Hxe by (rewrite <- Hp; left).
      assert (y ∈ x :: l) as Hyl by (rewrite Hp; left).
      apply elem_of_cons in Hxe as [-> | Hxe]; [done |].
      apply elem_of_cons in Hyl as [-> | Hyl]; [done |].
      specialize (Hx y Hyl). specialize (Hy x Hxe).
      apply str_le_compare in Hx. rewrite String.compare_antisym, Hy in Hx.
      done. }
    f_equal. apply IH; [done |]. by apply Permutation_cons_inv in Hp.
Qed.

(** X14: with a clock that runs forward the timeline lists the votes in the
    order of their submission, in whatever order the records are
    retrieved. From a world with a handle and no feedback, after votes of
    scores in 1..5 submitted at valid UTC clock readings each later than the
    one before, [get_stats] returns as timeline the entry of each vote, in
    the order of submission; and so does the aggregation of the stored
    records in any other order. *)
Theorem timeline_in_submission_order (votes : list (Z * datetime))
    (w : world) :
  is_Some (db w) ->
  collection_docs "feedback" w = [] ->
  Forall (fun v => 1 <= v.1 <= 5 /\ datetime_valid v.2 /\
                   utcoffset v.2 = Some 0) votes ->
  StronglySorted (fun u v => dt_compare u.2 v.2 = Lt) votes ->
  exists w' : world,
    submit_all votes w = Ok w' /\
    (exists r : stats,
       (get_stats w').1 = Ok r /\
       timeline r = (fun v => Entry (isoformat v.2) v.1) <$> votes) /\
    forall docs : list document,
      docs ≡ₚ collection_docs "feedback" w' ->
      exists r : stats,
        aggregate docs = Ok r /\
        timeline r = (fun v => Entry (isoformat v.2) v.1) <$> votes.
Proof.
  intros Hdb Hempty Hv Hs.
  destruct (submit_all_docs votes w Hdb) as (w' & Hsub & Hd & Hc).
  rewrite Hempty, app_nil_l in Hc.
  assert (Forall (fun v : Z * datetime => 1 <= v.1 <= 5) votes) as Hr
    by (eapply Forall_impl; [exact Hv | by intros v (? & _)]).
  assert (Forall (fun v : Z * datetime =>
            datetime_valid v.2 /\ utcoffset v.2 = Some 0) votes) as Ht
    by (eapply Forall_impl; [exact Hv | by intros v (_ & ? & ?)]).
  assert (forall docs : list document,
            docs ≡ₚ collection_docs "feedback" w' ->
            exists r : stats,
              aggregate docs = Ok r /\
              timeline r = (fun v => Entry (isoformat v.2) v.1) <$> votes)
    as Hany.
  { intros docs Hp. exists (stats_of (omap kept docs)). split.
    - apply aggregate_ok. split; [| done].
      apply Forall_forall. intros d Hdocs. rewrite Hp, Hc in Hdocs.
      apply list_elem_of_fmap in Hdocs as (v & -> & _).
      apply vote_record_coercible.
    - cbn [timeline stats_of].
      apply (ascending_increasing_eq timestamp);
        [apply sorted_ascending | by apply votes_increasing |].
      by rewrite sorted_perm, Hp, Hc, omap_kept_votes. }
  exists w'. split; [exact Hsub |]. split; [| exact Hany].
  rewrite get_stats_configured by (by rewrite Hd). cbn [fst].
  by apply Hany.
Qed.

End Service.









(** ** The theorems at work on the sample data *)

Example aggregate_sample_docs :
  aggregate IntLiteral.parse sample_docs = Ok sample_stats.
Proof. reflexivity. Qed.

(** Scores of other types are coerced by [int]: the text [" 5 "], the float
    3.75 (truncated to 3) and [True] (1) are counted; timestamps that are
    no datetime are printed by [str]. *)
Example aggregate_coerced_scores :
  aggregate IntLiteral.parse
    [ {[ "score" := PStr " 5 "; "created_at" := PStr "2024-05-17" ]};
      {[ "score" := PFloat (S754_finite false 15 (-2)) "3.75";
         "created_at" := PInt 1715938200 ]};
      {[ "score" := PBool true ]} ]
  = Ok (Stats {[ "1" := 1; "2" := 0; "3" := 1; "4" := 0; "5" := 1 ]} 3 9
          [Entry "1715938200" 3; Entry "2024-05-17" 5; Entry "None" 1]).
Proof. reflexivity. Qed.

(** A score that is a text but no integer literal raises [ValueError]. *)
Example aggregate_text_score_raises :
  aggregate IntLiteral.parse [good_record; {[ "score" := PStr "five" ]}]
  = Raise ValueError.
Proof. reflexivity. Qed.

(** C1, the claim as it stands fails: a stored record whose score is null
    does not convert, and the aggregation raises [TypeError] instead of
    returning what the valid record alone gives. *)
Lemma aggregate_null_score_raises :
  valid_record IntLiteral.parse null_score_record = false /\
  aggregate IntLiteral.parse [good_record; null_score_record]
  = Raise TypeError /\
  aggregate IntLiteral.parse
    (List.filter (valid_record IntLiteral.parse)
       [good_record; null_score_record])
  = Ok sample_stats.
Proof. repeat split; reflexivity. Qed.

(** C1 at the sample records: a missing score and the score 9 are skipped. *)
Lemma aggregate_skips_invalid_witness :
  Forall (fun d => coercible IntLiteral.parse d = true) sample_docs /\
  exists r : stats,
    aggregate IntLiteral.parse sample_docs = Ok r /\
    aggregate IntLiteral.parse
      (List.filter (valid_record IntLiteral.parse) sample_docs) = Ok r.
Proof.
  assert (Forall (fun d => coercible IntLiteral.parse d = true) sample_docs)
    as H by (repeat constructor).
  split; [exact H |].
  exact (aggregate_skips_invalid IntLiteral.parse sample_docs H).
Defined.

(** C2 from the empty configured world, at three sample clock readings. *)
Lemma stats_after_3_5_3_witness :
  is_Some (db empty_world) /\
  collection_docs "feedback" empty_world = [] /\
  exists (w' : world) (r : stats),
    submit_all
      [(3, sample_time 1); (5, sample_time 2); (3, sample_time 3)]
      empty_world = Ok w' /\
    (get_stats IntLiteral.parse w').1 = Ok r /\
    counts r = {[ "1" := 0; "2" := 0; "3" := 2; "4" := 0; "5" := 1 ]} /\
    total_votes r = 3 /\
    total_score r = 11 /\
    length (timeline r) = 3%nat /\
    ascending timestamp (timeline r) /\
    timeline r ≡ₚ [Entry (isoformat (sample_time 1)) 3;
                   Entry (isoformat (sample_time 2)) 5;
                   Entry (isoformat (sample_time 3)) 3].
Proof.
  assert (is_Some (db empty_world)) as Hdb by (eexists; reflexivity).
  split; [exact Hdb |]. split; [reflexivity |].
  exact (stats_after_3_5_3 IntLiteral.parse empty_world
           (sample_time 1) (sample_time 2) (sample_time 3) Hdb eq_refl).
Defined.

(** C4 at the sample records and their response. *)
Lemma total_votes_is_count_witness :
  aggregate IntLiteral.parse sample_docs = Ok sample_stats /\
  exists c1 c2 c3 c4 c5 : Z,
    counts sample_stats
    = {[ "1" := c1; "2" := c2; "3" := c3; "4" := c4; "5" := c5 ]} /\
    total_votes sample_stats = c1 + c2 + c3 + c4 + c5 /\
    total_votes sample_stats
    = Z.of_nat (length (List.filter (passes_range IntLiteral.parse) sample_docs)).
Proof.
  split; [reflexivity |].
  exact (total_votes_is_count IntLiteral.parse sample_docs sample_stats eq_refl).
Defined.

(** C5 at three records retrieved out of the order of their timestamps, two
    of them with the same timestamp: the sort has to move the first record
    behind the other two. *)
Lemma timeline_sorted_witness :
  aggregate IntLiteral.parse unordered_docs = Ok unordered_stats /\
  ascending timestamp (timeline unordered_stats) /\
  forall docs' : list document, docs' ≡ₚ unordered_docs ->
    exists r' : stats,
      aggregate IntLiteral.parse docs' = Ok r' /\
      ascending timestamp (timeline r') /\
      timeline r' ≡ₚ timeline unordered_stats.
Proof.
  split; [reflexivity |].
  exact (timeline_sorted IntLiteral.parse unordered_docs unordered_stats
           eq_refl).
Defined.

(** C10 at the sample records and their response. *)
Lemma stats_invariant_witness :
  aggregate IntLiteral.parse sample_docs = Ok sample_stats /\
  Z.of_nat (length (timeline sample_stats)) = total_votes sample_stats /\
  Forall (fun e => 1 <= score e <= 5) (timeline sample_stats) /\
  exists c1 c2 c3 c4 c5 : Z,
    counts sample_stats
    = {[ "1" := c1; "2" := c2; "3" := c3; "4" := c4; "5" := c5 ]} /\
    total_score sample_stats = 1 * c1 + 2 * c2 + 3 * c3 + 4 * c4 + 5 * c5.
Proof.
  split; [reflexivity |].
  exact (stats_invariant IntLiteral.parse sample_docs sample_stats eq_refl).
Defined.

(** Without a database handle a valid score is not persisted: the request
    fails with the error 500. *)
Example post_feedback_unconfigured :
  post_feedback strict_int (Some (PInt 3)) (sample_time 0) unconfigured_world
  = (Raise (HTTPException 500 "Database not configured"), unconfigured_world).
Proof. reflexivity. Qed.

(** C6, the claim as it stands fails: the text ["3"] is not an integer, but
    the validation in its default mode converts it to 3, so the request is
    not rejected: it is acknowledged and one record of score 3 is
    persisted. *)
Lemma post_feedback_text_accepted :
  lax_int (PStr "3") = Some 3 /\
  post_feedback lax_int (Some (PStr "3")) (sample_time 0) empty_world
  = (Ok (Ack true (Some "Thanks for your feedback!")),
     World (Some sample_handle)
       {[ "feedback" := [vote_record 3 (sample_time 0)] ]}
       [InsertOne "feedback" (vote_record 3 (sample_time 0))]).
Proof. split; reflexivity. Qed.

(** C6 under the reference validation: a text that is no literal, a list
    and the score 6 are rejected; the score 3 and the text ["3"] are each
    stored as one record of score 3. *)
Lemma post_feedback_validates_witness :
  (forall z : Z, lax_int (PInt z) = Some z) /\
  post_feedback lax_int (Some (PStr "five")) (sample_time 0) empty_world
  = (Raise RequestValidationError, empty_world) /\
  post_feedback lax_int (Some (PObj (Raise TypeError) "[3]")) (sample_time 0)
    empty_world
  = (Raise RequestValidationError, empty_world) /\
  post_feedback lax_int (Some (PInt 6)) (sample_time 0) empty_world
  = (Raise RequestValidationError, empty_world) /\
  (exists (a : ack) (rec : document) (w' : world),
     post_feedback lax_int (Some (PStr "3")) (sample_time 0) empty_world
     = (Ok a, w') /\
     rec !! "score" = Some (PInt 3) /\
     collection_docs "feedback" w'
     = collection_docs "feedback" empty_world ++ [rec] /\
     (forall c : string, c <> "feedback" ->
        collection_docs c w' = collection_docs c empty_world) /\
     calls w' = calls empty_world ++ [InsertOne "feedback" rec]) /\
  exists (a : ack) (rec : document) (w' : world),
    post_feedback lax_int (Some (PInt 3)) (sample_time 0) empty_world
    = (Ok a, w') /\
    rec !! "score" = Some (PInt 3) /\
    collection_docs "feedback" w'
    = collection_docs "feedback" empty_world ++ [rec] /\
    (forall c : string, c <> "feedback" ->
       collection_docs c w' = collection_docs c empty_world) /\
    calls w' = calls empty_world ++ [InsertOne "feedback" rec].
Proof.
  assert (forall z : Z, lax_int (PInt z) = Some z) as Hint
    by (intros z; reflexivity).
  assert (is_Some (db empty_world)) as Hdb by (eexists; reflexivity).
  assert (1 <= 3 <= 5) as H3 by lia.
  assert (~ 1 <= 6 <= 5) as H6 by lia.
  split; [exact Hint |]. split; [| split; [| split; [| split]]].
  - exact (proj1 (post_feedback_validates lax_int Hint (PStr "five")
                    (sample_time 0) empty_world) eq_refl).
  - exact (proj1 (post_feedback_validates lax_int Hint
                    (PObj (Raise TypeError) "[3]")
                    (sample_time 0) empty_world) eq_refl).
  - exact (proj1 (proj2 (proj2 (post_feedback_validates lax_int Hint
                    (PInt 6) (sample_time 0) empty_world))) 6 eq_refl H6).
  - exact (proj1 (proj2 (proj2 (proj2 (post_feedback_validates lax_int Hint
                    (PStr "3") (sample_time 0) empty_world)))) 3 eq_refl
             H3 Hdb).
  - exact (proj2 (proj2 (proj2 (proj2 (post_feedback_validates lax_int Hint
                    (PInt 3) (sample_time 0) empty_world)))) 3 eq_refl
             H3 Hdb).
Defined.

(** C7 at the world without a handle: its stored record stays. *)
Lemma unconfigured_fails_witness :
  db unconfigured_world = None /\
  (forall (vote : VoteRequest) (now : datetime),
     submit_feedback vote now unconfigured_world
     = (Raise (HTTPException 500 "Database not configured"),
        unconfigured_world)) /\
  get_stats IntLiteral.parse unconfigured_world
  = (Raise (HTTPException 500 "Database not configured"), unconfigured_world) /\
  reset_votes unconfigured_world
  = (Raise (HTTPException 500 "Database not configured"), unconfigured_world).
Proof.
  split; [reflexivity |].
  exact (unconfigured_fails IntLiteral.parse unconfigured_world eq_refl).
Defined.

(** The diagnostics when listing the collections raises: the text of the
    exception is cut after 50 characters. *)
Example test_database_listing_raises :
  test_database
    (Returned (Some (DbHandle (Some (Returned "feedback_db"))
       (Raised (Raised_ false
          "localhost:27017: [Errno 111] Connection refused, Timeout: 5s, Topology Description")))))
    (Some "mongodb://localhost:27017") None
  = Returned
      (Diagnostics "✅ Running"
         "⚠️  Connected but Error: localhost:27017: [Errno 111] Connection refused, T"
         (Some "✅ Set") (Some "❌ Not Set") "Connected" []).
Proof. reflexivity. Qed.

(** ** The further properties at work on the sample data *)

(** X1 at the sample records followed by one more valid record. *)
Lemma aggregate_app_witness :
  aggregate IntLiteral.parse sample_docs = Ok sample_stats /\
  aggregate IntLiteral.parse [good_record] = Ok sample_stats /\
  exists r : stats,
    aggregate IntLiteral.parse (sample_docs ++ [good_record]) = Ok r /\
    total_votes r = total_votes sample_stats + total_votes sample_stats /\
    total_score r = total_score sample_stats + total_score sample_stats /\
    (forall (key : string) (c1 c2 : Z),
       counts sample_stats !! key = Some c1 ->
       counts sample_stats !! key = Some c2 ->
       counts r !! key = Some (c1 + c2)) /\
    timeline r ≡ₚ timeline sample_stats ++ timeline sample_stats.
Proof.
  split; [reflexivity |]. split; [reflexivity |].
  exact (aggregate_app IntLiteral.parse sample_docs [good_record]
           sample_stats sample_stats eq_refl eq_refl).
Defined.

(** X2 at the sample records with the first two swapped. *)
Lemma aggregate_permutation_witness :
  [good_record; no_score_record; big_score_record] ≡ₚ sample_docs /\
  aggregate IntLiteral.parse sample_docs = Ok sample_stats /\
  exists r' : stats,
    aggregate IntLiteral.parse
      [good_record; no_score_record; big_score_record] = Ok r' /\
    counts r' = counts sample_stats /\
    total_votes r' = total_votes sample_stats /\
    total_score r' = total_score sample_stats.
Proof.
  assert ([good_record; no_score_record; big_score_record] ≡ₚ sample_docs)
    as Hp by apply perm_swap.
  split; [exact Hp |]. split; [reflexivity |].
  exact (aggregate_permutation IntLiteral.parse sample_docs _ sample_stats
           Hp eq_refl).
Defined.

(** X3 at the sample records and their response. *)
Lemma stats_bounds_witness :
  aggregate IntLiteral.parse sample_docs = Ok sample_stats /\
  0 <= total_votes sample_stats <= Z.of_nat (length sample_docs) /\
  total_votes sample_stats <= total_score sample_stats
    <= 5 * total_votes sample_stats /\
  forall (key : string) (c : Z),
    counts sample_stats !! key = Some c -> 0 <= c <= total_votes sample_stats.
Proof.
  split; [reflexivity |].
  exact (stats_bounds IntLiteral.parse sample_docs sample_stats eq_refl).
Defined.

(** X4 at a null score between two other records. *)
Lemma aggregate_first_error_witness :
  Forall (fun d' => coercible IntLiteral.parse d' = true) [good_record] /\
  score_of IntLiteral.parse null_score_record = Raise TypeError /\
  aggregate IntLiteral.parse
    ([good_record] ++ null_score_record :: [big_score_record])
  = Raise TypeError.
Proof.
  assert (Forall (fun d' => coercible IntLiteral.parse d' = true)
            [good_record]) as H by (repeat constructor).
  split; [exact H |]. split; [reflexivity |].
  exact (aggregate_first_error IntLiteral.parse [good_record]
           [big_score_record] null_score_record TypeError H eq_refl).
Defined.

(** X5 at three records of which the second and the third carry the same
    timestamp and the first a later one: the two stay in the order of their
    retrieval, the scores 2 and 4. *)
Lemma timeline_stable_witness :
  aggregate IntLiteral.parse unordered_docs = Ok unordered_stats /\
  List.filter
    (fun e => String.eqb (timestamp e) "2024-05-17T09:30:01+00:00")
    (timeline unordered_stats)
  = [Entry "2024-05-17T09:30:01+00:00" 2;
     Entry "2024-05-17T09:30:01+00:00" 4] /\
  List.filter
    (fun e => String.eqb (timestamp e) "2024-05-17T09:30:01+00:00")
    (timeline unordered_stats)
  = List.filter
      (fun e => String.eqb (timestamp e) "2024-05-17T09:30:01+00:00")
      (omap (kept IntLiteral.parse) unordered_docs).
Proof.
  split; [reflexivity |]. split; [reflexivity |].
  exact (timeline_stable IntLiteral.parse unordered_docs unordered_stats
           "2024-05-17T09:30:01+00:00" eq_refl).
Defined.

(** X6 at the sample records, each given an [_id]. *)
Lemma aggregate_other_fields_witness :
  "_id" <> "score" /\ "_id" <> "created_at" /\
  aggregate IntLiteral.parse
    ((fun d => <["_id" := PObj (Raise TypeError) "6647a1f0"]> d)
       <$> sample_docs)
  = aggregate IntLiteral.parse sample_docs.
Proof.
  assert ("_id" <> "score") as H1 by discriminate.
  assert ("_id" <> "created_at") as H2 by discriminate.
  split; [exact H1 |]. split; [exact H2 |].
  exact (aggregate_other_fields IntLiteral.parse sample_docs "_id"
           (fun _ => PObj (Raise TypeError) "6647a1f0") H1 H2).
Defined.

(** X7 at a first vote of score 3 into the empty configured world. *)
Lemma submit_then_stats_witness :
  is_Some (db empty_world) /\ 1 <= 3 <= 5 /\
  (get_stats IntLiteral.parse empty_world).1
  = Ok (Stats {[ "1" := 0; "2" := 0; "3" := 0; "4" := 0; "5" := 0 ]} 0 0 []) /\
  exists (w' : world) (r' : stats),
    submit_feedback {| vote_score := 3 |} (sample_time 1) empty_world
    = (Ok (Ack true (Some "Thanks for your feedback!")), w') /\
    (get_stats IntLiteral.parse w').1 = Ok r' /\
    total_votes r' = 0 + 1 /\
    total_score r' = 0 + 3 /\
    (forall (key : string) (c : Z),
       ({[ "1" := 0; "2" := 0; "3" := 0; "4" := 0; "5" := 0 ]}
          : gmap string Z) !! key = Some c ->
       counts r' !! key
       = Some (if decide (key = str_of_int 3) then c + 1 else c)) /\
    timeline r' ≡ₚ [Entry (isoformat (sample_time 1)) 3].
Proof.
  assert (is_Some (db empty_world)) as Hdb by (eexists; reflexivity).
  assert (1 <= 3 <= 5) as Hs by lia.
  split; [exact Hdb |]. split; [exact Hs |]. split; [reflexivity |].
  exact (submit_then_stats IntLiteral.parse 3 (sample_time 1) empty_world
           (Stats {[ "1" := 0; "2" := 0; "3" := 0; "4" := 0; "5" := 0 ]}
              0 0 [])
           Hdb Hs eq_refl).
Defined.

(** X8 at the configured world with one stored record. *)
Lemma reset_then_stats_witness :
  is_Some (db stored_world) /\
  exists w' : world,
    reset_votes stored_world = (Ok (Ack true None), w') /\
    collection_docs "feedback" w' = [] /\
    (forall c : string, c <> "feedback" ->
       collection_docs c w' = collection_docs c stored_world) /\
    calls w' = calls stored_world ++ [DeleteMany "feedback"] /\
    (get_stats IntLiteral.parse w').1
    = Ok (Stats {[ "1" := 0; "2" := 0; "3" := 0; "4" := 0; "5" := 0 ]} 0 0 []).
Proof.
  assert (is_Some (db stored_world)) as Hdb by (eexists; reflexivity).
  split; [exact Hdb |].
  exact (reset_then_stats IntLiteral.parse stored_world Hdb).
Defined.

(** X9 at the sample requests, from the empty configured world. *)
Lemma served_feedback_counts_witness :
  is_Some (db empty_world) /\
  feedback_wellformed empty_world /\
  feedback_wellformed
    (serve_all IntLiteral.parse strict_int sample_requests empty_world) /\
  exists r : stats,
    (get_stats IntLiteral.parse
       (serve_all IntLiteral.parse strict_int sample_requests empty_world)).1
    = Ok r /\
    total_votes r
    = Z.of_nat
        (length
           (collection_docs "feedback"
              (serve_all IntLiteral.parse strict_int sample_requests
                 empty_world))).
Proof.
  assert (is_Some (db empty_world)) as Hdb by (eexists; reflexivity).
  assert (feedback_wellformed empty_world) as Hw by constructor.
  split; [exact Hdb |]. split; [exact Hw |].
  exact (served_feedback_counts IntLiteral.parse strict_int sample_requests
           empty_world Hdb Hw).
Defined.

(** X12 at a listing that raises a text of 82 characters: 50 are shown. *)
Lemma diagnostics_error_text_witness :
  (forall e' : raised, db_name failing_handle <> Some (Raised e')) /\
  list_collection_names failing_handle
  = Raised (Raised_ false long_error_text) /\
  ascii_text (exc_text (Raised_ false long_error_text)) = true /\
  String.length long_error_text = 82%nat /\
  exists (r : diagnostics) (shown rest : string),
    test_database (Returned (Some failing_handle)) None None = Returned r /\
    database r = "⚠️  Connected but Error: " +:+ shown /\
    exc_text (Raised_ false long_error_text) = shown +:+ rest /\
    String.length shown
    = Nat.min 50 (String.length (exc_text (Raised_ false long_error_text))) /\
    ((String.length (exc_text (Raised_ false long_error_text)) <= 50)%nat ->
     shown = exc_text (Raised_ false long_error_text)) /\
    collections r = [] /\
    connection_status r = "Connected".
Proof.
  assert (forall e' : raised, db_name failing_handle <> Some (Raised e'))
    as Hn by (intros e'; discriminate).
  split; [exact Hn |]. split; [reflexivity |]. split; [reflexivity |].
  split; [reflexivity |].
  exact (diagnostics_error_text failing_handle (Raised_ false long_error_text)
           None None Hn eq_refl eq_refl).
Defined.

(** X13 at two clock readings one second apart. *)
Lemma isoformat_order_witness :
  datetime_valid (sample_time 1) /\ datetime_valid (sample_time 2) /\
  utcoffset (sample_time 1) = utcoffset (sample_time 2) /\
  (str_le (isoformat (sample_time 1)) (isoformat (sample_time 2)) <->
   dt_compare (sample_time 1) (sample_time 2) <> Gt) /\
  (isoformat (sample_time 1) = isoformat (sample_time 2) <->
   dt_compare (sample_time 1) (sample_time 2) = Eq).
Proof.
  assert (datetime_valid (sample_time 1)) as H1
    by (unfold datetime_valid; cbn; lia).
  assert (datetime_valid (sample_time 2)) as H2
    by (unfold datetime_valid; cbn; lia).
  split; [exact H1 |]. split; [exact H2 |]. split; [reflexivity |].
  exact (isoformat_order (sample_time 1) (sample_time 2) H1 H2 eq_refl).
Defined.

(** X14 at three votes one second apart, also with the stored records
    retrieved in the reverse order. *)
Lemma timeline_in_submission_order_witness :
  is_Some (db empty_world) /\
  collection_docs "feedback" empty_world = [] /\
  Forall (fun v => 1 <= v.1 <= 5 /\ datetime_valid v.2 /\
                   utcoffset v.2 = Some 0) sample_votes /\
  StronglySorted (fun u v => dt_compare u.2 v.2 = Lt) sample_votes /\
  aggregate IntLiteral.parse
    [vote_record 3 (sample_time 3); vote_record 5 (sample_time 2);
     vote_record 3 (sample_time 1)]
  = Ok (Stats {[ "1" := 0; "2" := 0; "3" := 2; "4" := 0; "5" := 1 ]} 3 11
          ((fun v => Entry (isoformat v.2) v.1) <$> sample_votes)) /\
  exists w' : world,
    submit_all sample_votes empty_world = Ok w' /\
    (exists r : stats,
       (get_stats IntLiteral.parse w').1 = Ok r /\
       timeline r = (fun v => Entry (isoformat v.2) v.1) <$> sample_votes) /\
    forall docs : list document,
      docs ≡ₚ collection_docs "feedback" w' ->
      exists r : stats,
        aggregate IntLiteral.parse docs = Ok r /\
        timeline r = (fun v => Entry (isoformat v.2) v.1) <$> sample_votes.
Proof.
  assert (is_Some (db empty_world)) as Hdb by (eexists; reflexivity).
  assert (Forall (fun v : Z * datetime =>
            1 <= v.1 <= 5 /\ datetime_valid v.2 /\ utcoffset v.2 = Some 0)
            sample_votes) as Hv
    by (repeat constructor; cbn; lia).
  assert (StronglySorted
            (fun u v : Z * datetime => dt_compare u.2 v.2 = Lt)
            sample_votes) as Hs
    by (repeat constructor).
  split; [exact Hdb |]. split; [reflexivity |].
  split; [exact Hv |]. split; [exact Hs |]. split; [reflexivity |].
  exact (timeline_in_submission_order IntLiteral.parse sample_votes
           empty_world Hdb eq_refl Hv Hs).
Defined.
